(** * The SOCKS5 session state machine of [local.c]

    A shallow embedding of the per-connection callbacks of [src/local.c]
    (libuv based SOCKS5 proxy) together with a small model of the part of the
    libuv reactor the callbacks talk to: handle flags, outstanding requests,
    the release timer and the return codes of the fallible calls. *)

From Stdlib Require Import ZArith List Bool Lia.
Import ListNotations.
Open Scope Z_scope.

(** ** Data model *)

(** A byte is a [Z] in [0, 256). *)
Definition byte := Z.

Definition SERVER_PORT : Z := 8789.
Definition SERVER_BACKLOG : Z := 256.
Definition SESSION_DATA_BUFSIZ : Z := 2048.
Definition KEEPALIVE : Z := 60.

Inductive IPVersion : Type := IPV4 | IPV6.

Record ServerCfg : Type := {
  port : Z;
  backlog : Z
}.

(** [bound_ip] is the 16-byte union; an IPv4 address occupies its first four
    bytes. *)
Record ServerContext : Type := {
  server_cfg : ServerCfg;
  bound_ip_ver : IPVersion;
  bound_ip : list byte
}.

Inductive SessionState : Type :=
| S5_METHOD_IDENTIFICATION
| S5_REQUEST
| S5_STREAMING
| S5_STREAMING_END.

Definition SessionState_eqb (a b : SessionState) : bool :=
  match a, b with
  | S5_METHOD_IDENTIFICATION, S5_METHOD_IDENTIFICATION => true
  | S5_REQUEST, S5_REQUEST => true
  | S5_STREAMING, S5_STREAMING => true
  | S5_STREAMING_END, S5_STREAMING_END => true
  | _, _ => false
  end.

(** The decoder context of [socks5.h], with the fields [local.c] reads. *)
Record Socks5Ctx : Type := {
  s5_state : Z;
  methods : Z;
  atyp : Z;
  dst_addr : list byte;
  dst_port : Z
}.

(** [IPAddr]: the socket address union, as family, address bytes and the
    16-bit port field as stored (the value of [htons]). *)
Record IPAddr : Type := {
  sa_family : Z;
  sin_addr : list byte;
  sin_port : Z
}.

Record addrinfo : Type := {
  ai_family : Z;
  ai_addr : IPAddr
}.

(** What [local.c] takes from its headers and from the platform: the
    constants of [socks5.h] and [uv.h], the two decoder entry points of
    [socks5.c] and the byte order of the host. *)
Record Platform : Type := {
  S5_OK : Z;
  S5_UNSUPPORTED_CMD : Z;
  S5_BAD_ATYP : Z;
  S5_AUTH_NONE : Z;
  S5_PARSE_STATE_FINISH : Z;
  S5_ATYP_IPV4 : Z;
  S5_ATYP_DOMAIN : Z;
  S5_ATYP_IPV6 : Z;
  UV_ENETUNREACH : Z;
  UV_EHOSTUNREACH : Z;
  UV_ECONNREFUSED : Z;
  AF_INET : Z;
  AF_INET6 : Z;
  little_endian : bool;
  socks5_parse_method_identification :
    Socks5Ctx -> list byte -> Z -> Z * Socks5Ctx;
  socks5_parse_request :
    Socks5Ctx -> list byte -> Z -> Z * Socks5Ctx
}.

(** The labels of the [switch] in [client_write_error] are pairwise distinct
    (a C compiler rejects the program otherwise). *)
Definition case_labels_distinct (P : Platform) : Prop :=
  NoDup [UV_ENETUNREACH P; UV_EHOSTUNREACH P; UV_ECONNREFUSED P;
         S5_UNSUPPORTED_CMD P; S5_BAD_ATYP P].

(** ** Integers in memory *)

(** The bytes of a 32-bit [int] in memory, lowest address first. *)
Definition int_bytes (le : bool) (v : Z) : list byte :=
  let u := v mod 2 ^ 32 in
  let b0 := Z.land u 255 in
  let b1 := Z.land (Z.shiftr u 8) 255 in
  let b2 := Z.land (Z.shiftr u 16) 255 in
  let b3 := Z.land (Z.shiftr u 24) 255 in
  if le then [b0; b1; b2; b3] else [b3; b2; b1; b0].

(** A 16-bit port in network byte order: high byte first. *)
Definition port_network_order (p : Z) : list byte :=
  [Z.land (Z.shiftr p 8) 255; Z.land p 255].

(** [htons]: the 16-bit value whose bytes in memory are the port in network
    order. *)
Definition htons (le : bool) (p : Z) : Z :=
  let u := p mod 2 ^ 16 in
  if le then Z.lor (Z.shiftl (Z.land u 255) 8) (Z.shiftr u 8) else u.

(** [memcpy(dst + off, src, n)] on a buffer held as a list: the bytes of
    [src] replace those at [off .. off + n). *)
Definition memcpy (dst : list byte) (off : nat) (src : list byte) (n : nat)
  : list byte :=
  firstn off dst ++ firstn n src ++ skipn (off + n) dst.

(** ** The reactor as the callbacks see it *)

Inductive Endpoint : Type := Client | Upstream.

(** The call site of a write. *)
Inductive WriteKind : Type := WGreeting | WError | WSuccess | WRelay.

(** The libuv calls (and [free]) a callback makes, logged in order. *)
Inductive Call : Type :=
| CReadStart (e : Endpoint)
| CReadStop (e : Endpoint)
| CClose (e : Endpoint)
| CWrite (e : Endpoint) (k : WriteKind) (data : list byte)
| CTimerInit
| CTimerStart
| CTimerClose
| CFree
| CGetaddrinfo (name : list byte)
| CConnect (a : IPAddr)
| CTcpInit (e : Endpoint)
| CKeepalive (e : Endpoint)
| CAccept.

(** A completion delivered by the reactor.  [rets] are the return codes the
    fallible libuv calls of the callback will get, in call order (0 when the
    list runs out). *)
Inductive Event : Type :=
| EClientRead (nread : Z) (data : list byte) (rets : list Z)
| EClientWriteDone (status : Z) (rets : list Z)
| EUpstreamRead (nread : Z) (data : list byte) (rets : list Z)
| EUpstreamWriteDone (status : Z) (rets : list Z)
| EResolveDone (status : Z) (res : list addrinfo) (garbage : Z) (rets : list Z)
| EConnectDone (status : Z) (rets : list Z)
| EClientClosed
| EUpstreamClosed
| ETimerFire
| ETimerClosed.

Inductive Item : Type :=
| ICall (c : Call)
| IEvent (e : Event).

(** One stream handle ([uv_tcp_t]) with its write requests. *)
Record Stream : Type := {
  closing : bool;           (* uv_is_closing *)
  closed : bool;            (* close completed *)
  reading : bool;           (* uv_read_start in effect *)
  writes : list (list byte) (* writes handed to uv_write, not yet completed *)
}.

(** The release timer ([timer_release_req]). *)
Record Timer : Type := {
  t_armed : bool;
  t_closing : bool;
  t_close_cb : bool          (* close callback still to run *)
}.

(** The session, its handles and requests, and the observable history. *)
Record World : Type := {
  state : SessionState;
  socks5_ctx : Socks5Ctx;
  client_buf : list byte;
  client_tcp : Stream;
  upstream_tcp : Stream;
  upstream_addrinfo_req : bool;     (* a resolve is outstanding *)
  upstream_connect_req : option IPAddr; (* a connect is outstanding *)
  timer_release_req : Timer;
  frees : nat;                      (* calls of free(sess) *)
  oracle : list Z;                  (* return codes still to hand out *)
  history : list Item               (* newest first *)
}.

Definition stream_of (e : Endpoint) (w : World) : Stream :=
  match e with Client => client_tcp w | Upstream => upstream_tcp w end.

Definition set_state (s : SessionState) (w : World) : World :=
  Build_World s (socks5_ctx w) (client_buf w) (client_tcp w) (upstream_tcp w)
    (upstream_addrinfo_req w) (upstream_connect_req w) (timer_release_req w)
    (frees w) (oracle w) (history w).

Definition set_socks5_ctx (c : Socks5Ctx) (w : World) : World :=
  Build_World (state w) c (client_buf w) (client_tcp w) (upstream_tcp w)
    (upstream_addrinfo_req w) (upstream_connect_req w) (timer_release_req w)
    (frees w) (oracle w) (history w).

Definition set_client_buf (b : list byte) (w : World) : World :=
  Build_World (state w) (socks5_ctx w) b (client_tcp w) (upstream_tcp w)
    (upstream_addrinfo_req w) (upstream_connect_req w) (timer_release_req w)
    (frees w) (oracle w) (history w).

Definition set_stream (e : Endpoint) (s : Stream) (w : World) : World :=
  match e with
  | Client =>
    Build_World (state w) (socks5_ctx w) (client_buf w) s (upstream_tcp w)
      (upstream_addrinfo_req w) (upstream_connect_req w) (timer_release_req w)
      (frees w) (oracle w) (history w)
  | Upstream =>
    Build_World (state w) (socks5_ctx w) (client_buf w) (client_tcp w) s
      (upstream_addrinfo_req w) (upstream_connect_req w) (timer_release_req w)
      (frees w) (oracle w) (history w)
  end.

Definition set_addrinfo_req (b : bool) (w : World) : World :=
  Build_World (state w) (socks5_ctx w) (client_buf w) (client_tcp w)
    (upstream_tcp w) b (upstream_connect_req w) (timer_release_req w)
    (frees w) (oracle w) (history w).

Definition set_connect_req (c : option IPAddr) (w : World) : World :=
  Build_World (state w) (socks5_ctx w) (client_buf w) (client_tcp w)
    (upstream_tcp w) (upstream_addrinfo_req w) c (timer_release_req w)
    (frees w) (oracle w) (history w).

Definition set_timer (t : Timer) (w : World) : World :=
  Build_World (state w) (socks5_ctx w) (client_buf w) (client_tcp w)
    (upstream_tcp w) (upstream_addrinfo_req w) (upstream_connect_req w) t
    (frees w) (oracle w) (history w).

Definition set_frees (n : nat) (w : World) : World :=
  Build_World (state w) (socks5_ctx w) (client_buf w) (client_tcp w)
    (upstream_tcp w) (upstream_addrinfo_req w) (upstream_connect_req w)
    (timer_release_req w) n (oracle w) (history w).

Definition set_oracle (o : list Z) (w : World) : World :=
  Build_World (state w) (socks5_ctx w) (client_buf w) (client_tcp w)
    (upstream_tcp w) (upstream_addrinfo_req w) (upstream_connect_req w)
    (timer_release_req w) (frees w) o (history w).

Definition record (i : Item) (w : World) : World :=
  Build_World (state w) (socks5_ctx w) (client_buf w) (client_tcp w)
    (upstream_tcp w) (upstream_addrinfo_req w) (upstream_connect_req w)
    (timer_release_req w) (frees w) (oracle w) (i :: history w).

(** The next return code of a fallible libuv call. *)
Definition next_ret (w : World) : Z * World :=
  match oracle w with
  | [] => (0, w)
  | r :: o => (r, set_oracle o w)
  end.

(** *** libuv calls *)

Definition uv_read_stop (e : Endpoint) (w : World) : World :=
  let s := stream_of e w in
  record (ICall (CReadStop e))
    (set_stream e (Build_Stream (closing s) (closed s) false (writes s)) w).

Definition uv_read_start (e : Endpoint) (w : World) : Z * World :=
  let (r, w) := next_ret w in
  let s := stream_of e w in
  let w := record (ICall (CReadStart e)) w in
  if r =? 0
  then (r, set_stream e (Build_Stream (closing s) (closed s) true (writes s)) w)
  else (r, w).

Definition uv_is_closing (e : Endpoint) (w : World) : bool :=
  closing (stream_of e w).

Definition uv_close (e : Endpoint) (w : World) : World :=
  let s := stream_of e w in
  record (ICall (CClose e))
    (set_stream e (Build_Stream true (closed s) (reading s) (writes s)) w).

(** [uv_write]: an accepted write is outstanding until its completion is
    delivered.  It is known here by the bytes its buffer held at the call.
    The request object ([client_write_req], [upstream_write_req], one per
    endpoint) and the memory behind the buffer pointer are not modelled, so
    nothing is said on what the reactor does when a request or a buffer is
    used again while a write is outstanding. *)
Definition uv_write (e : Endpoint) (k : WriteKind) (data : list byte)
  (w : World) : Z * World :=
  let (r, w) := next_ret w in
  let s := stream_of e w in
  let w := record (ICall (CWrite e k data)) w in
  if r =? 0
  then (r, set_stream e
             (Build_Stream (closing s) (closed s) (reading s)
                (writes s ++ [data])) w)
  else (r, w).

(** [uv_timer_init] resets the flags of the timer; a close callback still to
    run stays so.  [schedule_release_timer] may call it on a timer that is
    still armed or closing (from a re-entered [close_session], and again
    from [client_handle_close_cb]); what libuv does with a handle that is
    initialised again while the loop holds it is not part of [local.c] and
    is not modelled.  The release theorems are stated for sessions in which
    that does not happen. *)
Definition uv_timer_init (w : World) : World :=
  record (ICall CTimerInit)
    (set_timer (Build_Timer false false (t_close_cb (timer_release_req w))) w).

Definition uv_timer_start (w : World) : World :=
  let t := timer_release_req w in
  record (ICall CTimerStart)
    (set_timer (Build_Timer true (t_closing t) (t_close_cb t)) w).

Definition uv_timer_is_closing (w : World) : bool :=
  t_closing (timer_release_req w).

Definition uv_timer_close (w : World) : World :=
  record (ICall CTimerClose) (set_timer (Build_Timer false true true) w).

Definition free (w : World) : World :=
  record (ICall CFree) (set_frees (S (frees w)) w).

Definition uv_getaddrinfo (name : list byte) (w : World) : Z * World :=
  let (r, w) := next_ret w in
  let w := record (ICall (CGetaddrinfo name)) w in
  if r =? 0 then (r, set_addrinfo_req true w) else (r, w).

(** [uv_tcp_init], [uv_tcp_keepalive], [uv_accept] and [uv_has_ref] as used
    on a new session: only their return codes matter to the callbacks. *)
Definition uv_setup_call (c : Call) (w : World) : Z * World :=
  let (r, w) := next_ret w in (r, record (ICall c) w).

Definition uv_has_ref (w : World) : bool * World :=
  let (r, w) := next_ret w in (negb (r =? 0), w).

Definition uv_tcp_connect (a : IPAddr) (w : World) : Z * World :=
  let (r, w) := next_ret w in
  let w := record (ICall (CConnect a)) w in
  if r =? 0 then (r, set_connect_req (Some a) w) else (r, w).

(** ** The callbacks of [local.c] *)

Section Callbacks.

Variable P : Platform.
Variable g_server_ctx : ServerContext.

Definition create_session_state : SessionState := S5_METHOD_IDENTIFICATION.

Definition schedule_release_timer (w : World) : World :=
  uv_timer_start (uv_timer_init w).

(** [close_session]: the upstream handle is closed without a callback, the
    client handle with [client_handle_close_cb]; when the client handle is
    already closing the release timer is scheduled instead. *)
Definition close_session (w : World) : World :=
  let w := uv_read_stop Upstream w in
  let w := if negb (uv_is_closing Upstream w) then uv_close Upstream w else w in
  let w := uv_read_stop Client w in
  if negb (uv_is_closing Client w)
  then uv_close Client w
  else schedule_release_timer w.

Definition client_handle_close_cb (w : World) : World :=
  schedule_release_timer w.

Definition release_timer_cb (w : World) : World :=
  if negb (uv_timer_is_closing w) then uv_timer_close w else free w.

Definition release_timer_handle_close_cb (w : World) : World :=
  free w.

Definition client_read_start (w : World) : Z * World :=
  let (err, w) := uv_read_start Client w in
  if negb (err =? 0) then (err, close_session w) else (err, w).

Definition client_write_start (k : WriteKind) (buf : list byte) (w : World)
  : Z * World :=
  let (err, w) := uv_write Client k buf w in
  if negb (err =? 0) then (err, close_session w) else (err, w).

Definition client_write_string (k : WriteKind) (data : list byte) (len : nat)
  (w : World) : Z * World :=
  client_write_start k (firstn len data) w.

(** The [switch] of [client_write_error]: the REP byte for an error code. *)
Definition rep_of_error (err : Z) : byte :=
  if err =? UV_ENETUNREACH P then 3
  else if err =? UV_EHOSTUNREACH P then 4
  else if err =? UV_ECONNREFUSED P then 5
  else if err =? S5_UNSUPPORTED_CMD P then 7
  else if err =? S5_BAD_ATYP P then 8
  else 1.

Definition error_reply (err : Z) : list byte :=
  [5; rep_of_error err; 0; 1; 0; 0; 0; 0; 0; 0].

Definition client_write_error (err : Z) (w : World) : Z * World :=
  let w := set_state S5_STREAMING_END w in
  client_write_string WError (error_reply err) 10 w.

Definition upstream_read_start (w : World) : Z * World :=
  let (err, w) := uv_read_start Upstream w in
  if negb (err =? 0) then (err, close_session w) else (err, w).

Definition upstream_write_start (buf : list byte) (w : World) : Z * World :=
  let (err, w) := uv_write Upstream WRelay buf w in
  if negb (err =? 0) then (err, close_session w) else (err, w).

Definition on_client_write_done (status : Z) (w : World) : World :=
  if (status <? 0) || SessionState_eqb (state w) S5_STREAMING_END
  then close_session w
  else
    let (_, w) := client_read_start w in
    if SessionState_eqb (state w) S5_STREAMING
    then snd (upstream_read_start w)
    else w.

Definition upstream_connect (ipaddr : IPAddr) (w : World) : Z * World :=
  uv_tcp_connect ipaddr w.

(** The bytes of a C string: up to the first NUL. *)
Fixpoint c_string (l : list byte) : list byte :=
  match l with
  | [] => []
  | b :: r => if b =? 0 then [] else b :: c_string r
  end.

(** The [S5_REQUEST] branch of [on_client_read_done], after a successful
    [socks5_parse_request]. *)
Definition request_connect (w : World) : World :=
  let s5_ctx := socks5_ctx w in
  if atyp s5_ctx =? S5_ATYP_IPV4 P then
    let addr4 := Build_IPAddr (AF_INET P) (firstn 4 (dst_addr s5_ctx))
                   (htons (little_endian P) (dst_port s5_ctx)) in
    let (err, w) := upstream_connect addr4 w in
    if negb (err =? 0) then snd (client_write_error err w) else w
  else if atyp s5_ctx =? S5_ATYP_DOMAIN P then
    let (err, w) := uv_getaddrinfo (c_string (dst_addr s5_ctx)) w in
    if negb (err =? 0) then snd (client_write_error err w) else w
  else if atyp s5_ctx =? S5_ATYP_IPV6 P then
    let addr6 := Build_IPAddr (AF_INET6 P) (firstn 16 (dst_addr s5_ctx))
                   (htons (little_endian P) (dst_port s5_ctx)) in
    let (err, w) := upstream_connect addr6 w in
    if negb (err =? 0) then snd (client_write_error err w) else w
  else snd (client_write_error 20000 w).

Definition on_client_read_done (nread : Z) (buf : list byte) (w : World)
  : World :=
  if nread =? 0 then w
  else
    let w := uv_read_stop Client w in
    if nread <? 0 then close_session w
    else
      match state w with
      | S5_METHOD_IDENTIFICATION =>
        let (s5_err, s5_ctx) :=
          socks5_parse_method_identification P (socks5_ctx w) buf nread in
        let w := set_socks5_ctx s5_ctx w in
        if negb (s5_err =? S5_OK P) then close_session w
        else if s5_state s5_ctx =? S5_PARSE_STATE_FINISH P then
          if negb (Z.land (methods s5_ctx) (S5_AUTH_NONE P) =? 0) then
            snd (client_write_string WGreeting [5; 0] 2
                   (set_state S5_REQUEST w))
          else
            snd (client_write_string WGreeting [5; 255] 2
                   (set_state S5_STREAMING_END w))
        else snd (client_read_start w)
      | S5_REQUEST =>
        let (s5_err, s5_ctx) :=
          socks5_parse_request P (socks5_ctx w) buf nread in
        let w := set_socks5_ctx s5_ctx w in
        if negb (s5_err =? S5_OK P) then snd (client_write_error s5_err w)
        else request_connect w
      | S5_STREAMING =>
        snd (upstream_write_start (firstn (Z.to_nat nread) buf) w)
      | S5_STREAMING_END => close_session w
      end.

Definition on_upstream_read_done (nread : Z) (buf : list byte) (w : World)
  : World :=
  if nread =? 0 then w
  else
    let w := uv_read_stop Upstream w in
    if (nread <? 0) || SessionState_eqb (state w) S5_STREAMING_END
    then close_session w
    else snd (client_write_start WRelay (firstn (Z.to_nat nread) buf) w).

Definition on_upstream_write_done (status : Z) (w : World) : World :=
  if (status <? 0) || SessionState_eqb (state w) S5_STREAMING_END
  then close_session w
  else snd (client_read_start w).

(** The candidate loop of [upstream_connect_domain]; [err] is the local
    variable of that name, not initialised before the loop. *)
Fixpoint connect_candidates (res : list addrinfo) (err : Z) (w : World)
  : World :=
  match res with
  | [] => snd (client_write_error err w)
  | ai :: rest =>
    if ai_family ai =? AF_INET P then
      let ipaddr := Build_IPAddr (sa_family (ai_addr ai))
                      (sin_addr (ai_addr ai))
                      (htons (little_endian P) (dst_port (socks5_ctx w))) in
      let (err, w) := upstream_connect ipaddr w in
      if negb (err =? 0) then connect_candidates rest err w else w
    else if ai_family ai =? AF_INET6 P then
      let ipaddr := Build_IPAddr (sa_family (ai_addr ai))
                      (sin_addr (ai_addr ai))
                      (htons (little_endian P) (dst_port (socks5_ctx w))) in
      let (err, w) := upstream_connect ipaddr w in
      if negb (err =? 0) then connect_candidates rest err w else w
    else connect_candidates rest err w
  end.

Definition upstream_connect_domain (status : Z) (res : list addrinfo)
  (garbage : Z) (w : World) : World :=
  if status <? 0 then snd (client_write_error status w)
  else connect_candidates res garbage w.

(** [upstream_connect_cb] builds its reply in [client_buf]: the buffer after
    the three [memcpy] calls, and the length given to the write. *)
Definition success_buf (buf : list byte) : list byte :=
  let buf := memcpy buf 0 [5; 0; 0; 1] 4 in
  match bound_ip_ver g_server_ctx with
  | IPV4 =>
    memcpy (memcpy buf 4 (bound_ip g_server_ctx) 4) 8
      (int_bytes (little_endian P) (port (server_cfg g_server_ctx))) 2
  | IPV6 =>
    memcpy (memcpy buf 4 (bound_ip g_server_ctx) 16) 20
      (int_bytes (little_endian P) (port (server_cfg g_server_ctx))) 2
  end.

Definition success_len : nat :=
  match bound_ip_ver g_server_ctx with IPV4 => 10%nat | IPV6 => 22%nat end.

(** The bytes of the success reply handed to the write. *)
Definition success_reply (buf : list byte) : list byte :=
  firstn success_len (success_buf buf).

Definition upstream_connect_cb (status : Z) (w : World) : World :=
  if status <? 0 then snd (client_write_error status w)
  else
    let w := set_state S5_STREAMING w in
    let reply := success_reply (client_buf w) in
    let w := set_client_buf (success_buf (client_buf w)) w in
    snd (client_write_start WSuccess reply w).

(** [on_connection_new] on the session made by [create_session]. *)
Definition on_connection_new (w : World) : World :=
  let (err, w) := uv_setup_call (CTcpInit Client) w in
  if negb (err =? 0) then close_session w else
  let (err, w) := uv_setup_call (CKeepalive Client) w in
  if negb (err =? 0) then close_session w else
  let (has_ref, w) := uv_has_ref w in
  let upstream_init (w : World) : bool * World :=
    if negb has_ref then
      let (err, w) := uv_setup_call (CTcpInit Upstream) w in
      if negb (err =? 0) then (false, close_session w) else
      let (err, w) := uv_setup_call (CKeepalive Upstream) w in
      if negb (err =? 0) then (false, close_session w) else (true, w)
    else (true, w) in
  let (go_on, w) := upstream_init w in
  if negb go_on then w else
  let (err, w) := uv_setup_call CAccept w in
  if negb (err =? 0) then close_session w else
  snd (client_read_start w).

(** ** The reactor's side *)

(** The session as [create_session] returns it: phase set, every handle
    idle; decoder context and buffer hold whatever the allocator left. *)
Definition fresh (ctx : Socks5Ctx) (buf : list byte) (rets : list Z) : World :=
  Build_World create_session_state ctx buf
    (Build_Stream false false false []) (Build_Stream false false false [])
    false None (Build_Timer false false false) 0%nat rets [].

Definition is_nil {A : Type} (l : list A) : bool :=
  match l with [] => true | _ => false end.

Definition is_some {A : Type} (o : option A) : bool :=
  match o with Some _ => true | None => false end.

(** When the reactor may deliver a completion:
    - reads only on a handle that is reading and not closing;
    - a write or connect completion only for an outstanding request, with
      any status, until the close of its handle has completed (a write that
      finished before [uv_close] is still reported with status 0, a pending
      one as cancelled);
    - a handle's close completes after its requests have been completed;
    - the release timer fires when it is armed and not closing.  Nothing is
      assumed on when it fires relative to the close completions. *)
Definition enabled (w : World) (e : Event) : bool :=
  match e with
  | EClientRead _ _ _ =>
    reading (client_tcp w) && negb (closing (client_tcp w))
  | EUpstreamRead _ _ _ =>
    reading (upstream_tcp w) && negb (closing (upstream_tcp w))
  | EClientWriteDone _ _ =>
    negb (is_nil (writes (client_tcp w))) && negb (closed (client_tcp w))
  | EUpstreamWriteDone _ _ =>
    negb (is_nil (writes (upstream_tcp w))) && negb (closed (upstream_tcp w))
  | EResolveDone _ _ _ _ => upstream_addrinfo_req w
  | EConnectDone _ _ =>
    is_some (upstream_connect_req w) && negb (closed (upstream_tcp w))
  | EClientClosed =>
    closing (client_tcp w) && negb (closed (client_tcp w))
    && is_nil (writes (client_tcp w))
  | EUpstreamClosed =>
    closing (upstream_tcp w) && negb (closed (upstream_tcp w))
    && is_nil (writes (upstream_tcp w))
    && negb (is_some (upstream_connect_req w))
  | ETimerFire =>
    t_armed (timer_release_req w) && negb (t_closing (timer_release_req w))
  | ETimerClosed => t_close_cb (timer_release_req w)
  end.

Definition complete_write (e : Endpoint) (w : World) : World :=
  let s := stream_of e w in
  set_stream e (Build_Stream (closing s) (closed s) (reading s)
                  (tl (writes s))) w.

Definition complete_close (e : Endpoint) (w : World) : World :=
  let s := stream_of e w in
  set_stream e (Build_Stream (closing s) true false (writes s)) w.

(** The bytes of a client read land in the buffer [on_client_conn_alloc]
    handed out, which is [client_buf]; the callback is given that buffer. *)
Definition read_into_client_buf (nread : Z) (data : list byte) (w : World)
  : World :=
  if 0 <? nread
  then set_client_buf (memcpy (client_buf w) 0 data (Z.to_nat nread)) w
  else w.

(** The reactor's bookkeeping for a completion, then the callback. *)
Definition deliver (e : Event) (w : World) : World :=
  match e with
  | EClientRead nread data rets =>
    let w := read_into_client_buf nread data (set_oracle rets w) in
    on_client_read_done nread (client_buf w) w
  | EClientWriteDone status rets =>
    on_client_write_done status (complete_write Client (set_oracle rets w))
  | EUpstreamRead nread data rets =>
    on_upstream_read_done nread data (set_oracle rets w)
  | EUpstreamWriteDone status rets =>
    on_upstream_write_done status (complete_write Upstream (set_oracle rets w))
  | EResolveDone status res garbage rets =>
    upstream_connect_domain status res garbage
      (set_addrinfo_req false (set_oracle rets w))
  | EConnectDone status rets =>
    upstream_connect_cb status (set_connect_req None (set_oracle rets w))
  | EClientClosed => client_handle_close_cb (complete_close Client w)
  | EUpstreamClosed => complete_close Upstream w
  | ETimerFire =>
    let t := timer_release_req w in
    release_timer_cb (set_timer (Build_Timer false (t_closing t) (t_close_cb t)) w)
  | ETimerClosed =>
    let t := timer_release_req w in
    release_timer_handle_close_cb
      (set_timer (Build_Timer (t_armed t) (t_closing t) false) w)
  end.

Definition step (w : World) (e : Event) : option World :=
  if enabled w e then Some (deliver e (record (IEvent e) w)) else None.

(** Running a list of completions from a world; [None] when one of them is
    not enabled. *)
Fixpoint run (w : World) (es : list Event) : option World :=
  match es with
  | [] => Some w
  | e :: es =>
    match step w e with
    | Some w' => run w' es
    | None => None
    end
  end.

(** The worlds of an accepted connection. *)
Inductive reachable : World -> Prop :=
| reach_accept ctx buf rets :
    length buf = Z.to_nat SESSION_DATA_BUFSIZ ->
    reachable (on_connection_new (fresh ctx buf rets))
| reach_step w e w' :
    reachable w -> step w e = Some w' -> reachable w'.

End Callbacks.

(** ** A concrete platform *)

(** Modelled from the spec: the decoder of [socks5.c] and the constants of
    [socks5.h] are not part of [local.c].  The decoder below follows section
    4.1 of the specification: it accumulates the bytes seen so far (in
    [dst_addr] while a message is incomplete) and parses the message anew on
    every call.  It serves to run the callbacks on concrete inputs. *)
Module Spec_decoder.

Definition OK : Z := 0.
Definition BAD_VERSION : Z := 1.
Definition BAD_NMETHODS : Z := 2.
Definition BAD_RESERVED : Z := 3.
Definition UNSUPPORTED_CMD : Z := 4.
Definition BAD_ATYP : Z := 5.
Definition NEED_MORE : Z := 0.
Definition FINISH : Z := 1.

(** Bit [m] is set for every offered method code [m]. *)
Definition methods_bitmap (ms : list byte) : Z :=
  fold_right (fun m acc => Z.lor (Z.shiftl 1 m) acc) 0 ms.

Definition need_more (ctx : Socks5Ctx) (seen : list byte) : Z * Socks5Ctx :=
  (OK, Build_Socks5Ctx NEED_MORE (methods ctx) 0 seen 0).

Definition fail (e : Z) (ctx : Socks5Ctx) : Z * Socks5Ctx :=
  (e, Build_Socks5Ctx NEED_MORE (methods ctx) 0 [] 0).

Definition seen_so_far (ctx : Socks5Ctx) (buf : list byte) (n : Z) : list byte :=
  (if s5_state ctx =? NEED_MORE then dst_addr ctx else [])
  ++ firstn (Z.to_nat n) buf.

Definition parse_method_identification (ctx : Socks5Ctx) (buf : list byte)
  (n : Z) : Z * Socks5Ctx :=
  let seen := seen_so_far ctx buf n in
  match seen with
  | [] => need_more ctx seen
  | ver :: rest =>
    if negb (ver =? 5) then fail BAD_VERSION ctx else
    match rest with
    | [] => need_more ctx seen
    | nm :: ms =>
      if nm =? 0 then fail BAD_NMETHODS ctx else
      if (length ms <? Z.to_nat nm)%nat then need_more ctx seen
      else (OK, Build_Socks5Ctx FINISH
                  (methods_bitmap (firstn (Z.to_nat nm) ms)) 0 [] 0)
    end
  end.

Definition finish_request (ctx : Socks5Ctx) (at_ : Z) (addr : list byte)
  (alen : nat) (rest seen : list byte) : Z * Socks5Ctx :=
  match skipn alen rest with
  | hi :: lo :: _ =>
    (OK, Build_Socks5Ctx FINISH (methods ctx) at_ addr (hi * 256 + lo))
  | _ => need_more ctx seen
  end.

Definition parse_request (ctx : Socks5Ctx) (buf : list byte) (n : Z)
  : Z * Socks5Ctx :=
  let seen := seen_so_far ctx buf n in
  match seen with
  | [] => need_more ctx seen
  | ver :: r1 =>
    if negb (ver =? 5) then fail BAD_VERSION ctx else
    match r1 with
    | [] => need_more ctx seen
    | cmd :: r2 =>
      if negb (cmd =? 1) then fail UNSUPPORTED_CMD ctx else
      match r2 with
      | [] => need_more ctx seen
      | rsv :: r3 =>
        if negb (rsv =? 0) then fail BAD_RESERVED ctx else
        match r3 with
        | [] => need_more ctx seen
        | at_ :: r4 =>
          if at_ =? 1 then finish_request ctx at_ (firstn 4 r4) 4 r4 seen
          else if at_ =? 4 then finish_request ctx at_ (firstn 16 r4) 16 r4 seen
          else if at_ =? 3 then
            match r4 with
            | [] => need_more ctx seen
            | len :: r5 =>
              finish_request ctx at_ (firstn (Z.to_nat len) r5 ++ [0])
                (Z.to_nat len) r5 seen
            end
          else fail BAD_ATYP ctx
        end
      end
    end
  end.

End Spec_decoder.

(** Modelled from the spec: a little-endian Linux host with the error numbers
    of its [errno.h] (libuv's error codes are their negations), and the
    decoder and constants of [Spec_decoder] for the absent [socks5.h]. *)
Definition linux_le : Platform :=
  {| S5_OK := Spec_decoder.OK;
     S5_UNSUPPORTED_CMD := Spec_decoder.UNSUPPORTED_CMD;
     S5_BAD_ATYP := Spec_decoder.BAD_ATYP;
     S5_AUTH_NONE := 1;
     S5_PARSE_STATE_FINISH := Spec_decoder.FINISH;
     S5_ATYP_IPV4 := 1;
     S5_ATYP_DOMAIN := 3;
     S5_ATYP_IPV6 := 4;
     UV_ENETUNREACH := -101;
     UV_EHOSTUNREACH := -113;
     UV_ECONNREFUSED := -111;
     AF_INET := 2;
     AF_INET6 := 10;
     little_endian := true;
     socks5_parse_method_identification :=
       Spec_decoder.parse_method_identification;
     socks5_parse_request := Spec_decoder.parse_request |}.

(** The same host with the other byte order. *)
Definition linux_be : Platform :=
  {| S5_OK := Spec_decoder.OK;
     S5_UNSUPPORTED_CMD := Spec_decoder.UNSUPPORTED_CMD;
     S5_BAD_ATYP := Spec_decoder.BAD_ATYP;
     S5_AUTH_NONE := 1;
     S5_PARSE_STATE_FINISH := Spec_decoder.FINISH;
     S5_ATYP_IPV4 := 1;
     S5_ATYP_DOMAIN := 3;
     S5_ATYP_IPV6 := 4;
     UV_ENETUNREACH := -101;
     UV_EHOSTUNREACH := -113;
     UV_ECONNREFUSED := -111;
     AF_INET := 2;
     AF_INET6 := 10;
     little_endian := false;
     socks5_parse_method_identification :=
       Spec_decoder.parse_method_identification;
     socks5_parse_request := Spec_decoder.parse_request |}.

(** The server of the specification's scenarios: bound to 127.0.0.1, port
    [SERVER_PORT]. *)
Definition loopback_ctx : ServerContext :=
  {| server_cfg := {| port := SERVER_PORT; backlog := SERVER_BACKLOG |};
     bound_ip_ver := IPV4;
     bound_ip := [127; 0; 0; 1; 0; 0; 0; 0; 0; 0; 0; 0; 0; 0; 0; 0] |}.

Definition zero_ctx : Socks5Ctx := Build_Socks5Ctx 0 0 0 [] 0.

Definition zero_buf : list byte := repeat 0 (Z.to_nat SESSION_DATA_BUFSIZ).

(** ** Reading the history *)

(** What happened between [w] and a later world [w'], oldest first. *)
Definition since (w w' : World) : list Item :=
  rev (firstn (length (history w') - length (history w)) (history w')).

(** The writes handed to [uv_write] in a stretch of history. *)
Fixpoint writes_of (l : list Item) : list (Endpoint * WriteKind * list byte) :=
  match l with
  | [] => []
  | ICall (CWrite e k d) :: r => (e, k, d) :: writes_of r
  | _ :: r => writes_of r
  end.

(** The endpoints on which [uv_read_start] was called. *)
Fixpoint read_starts_of (l : list Item) : list Endpoint :=
  match l with
  | [] => []
  | ICall (CReadStart e) :: r => e :: read_starts_of r
  | _ :: r => read_starts_of r
  end.

(** The connect attempts made. *)
Fixpoint connects_of (l : list Item) : list IPAddr :=
  match l with
  | [] => []
  | ICall (CConnect a) :: r => a :: connects_of r
  | _ :: r => connects_of r
  end.

(** Both endpoints have been asked to close. *)
Definition closing_both (w : World) : bool :=
  closing (client_tcp w) && closing (upstream_tcp w).

(** The candidates [upstream_connect_domain] passes to [tcp_connect]: those
    of family INET or INET6, in list order, with the requested port. *)
Definition candidate_addrs (P : Platform) (p : Z) (res : list addrinfo)
  : list IPAddr :=
  map (fun ai => Build_IPAddr (sa_family (ai_addr ai)) (sin_addr (ai_addr ai))
                   (htons (little_endian P) p))
    (filter (fun ai => (ai_family ai =? AF_INET P)
                       || (ai_family ai =? AF_INET6 P)) res).

(** Walking the candidates with the return codes of the connect calls: the
    addresses tried, and either the address whose call was accepted or, when
    the list ran out, the error code in hand ([err] before any call). *)
Fixpoint attempt_walk (cands : list IPAddr) (rets : list Z) (err : Z)
  : list IPAddr * (IPAddr + Z) :=
  match cands with
  | [] => ([], inr err)
  | a :: r =>
    if hd 0 rets =? 0 then ([a], inl a)
    else let (t, o) := attempt_walk r (tl rets) (hd 0 rets) in (a :: t, o)
  end.

(** What the loop leaves behind, read off the walk. *)
Definition walk_outcome (P : Platform) (r : list IPAddr * (IPAddr + Z)) (w w' : World)
  (cs : list Item) : Prop :=
  history w' = cs ++ history w
  /\ connects_of cs = rev (fst r)
  /\ match snd r with
     | inl a =>
       writes_of cs = [] /\ state w' = state w
       /\ upstream_connect_req w' = Some a
     | inr e =>
       writes_of cs = [(Client, WError, error_reply P e)]
       /\ state w' = S5_STREAMING_END
     end.

(** ** Concrete runs *)

(** The accepted connection of the scenarios: every set-up call succeeds. *)
Definition accepted : World := on_connection_new (fresh zero_ctx zero_buf []).

(** Two resolved candidates, 127.0.0.1 and 127.0.0.2. *)
Definition cand_a : addrinfo := Build_addrinfo 2 (Build_IPAddr 2 [127; 0; 0; 1] 0).
Definition cand_b : addrinfo := Build_addrinfo 2 (Build_IPAddr 2 [127; 0; 0; 2] 0).

(** Greeting, then CONNECT to the domain "ab", port 80; the resolver returns
    both candidates; the connect to the first is accepted by the reactor and
    later completes with ECONNREFUSED (-111). *)
Definition refused_first_candidate : list Event :=
  [ EClientRead 3 [5; 1; 0] [];
    EClientWriteDone 0 [];
    EClientRead 9 [5; 1; 0; 3; 2; 97; 98; 0; 80] [];
    EResolveDone 0 [cand_a; cand_b] 0 [];
    EConnectDone (-111) [] ].

(** Scenario S1 continued: handshake, CONNECT 127.0.0.1:9000 succeeds, the
    client sends "hello" (written to the upstream endpoint, still in
    flight), the upstream sends two bytes (written to the client), that
    client write completes, and the client sends one more byte. *)
Definition relay_prefix : list Event :=
  [ EClientRead 3 [5; 1; 0] [];
    EClientWriteDone 0 [];
    EClientRead 10 [5; 1; 0; 1; 127; 0; 0; 1; 35; 40] [];
    EConnectDone 0 [];
    EClientWriteDone 0 [];
    EClientRead 5 [104; 101; 108; 108; 111] [];
    EUpstreamRead 2 [1; 2] [];
    EClientWriteDone 0 [] ].

Definition overlapping_writes : list Event :=
  relay_prefix ++ [ EClientRead 1 [9] [] ].

(** ** Invariants of a session *)

Definition handshake (s : SessionState) : bool :=
  match s with
  | S5_METHOD_IDENTIFICATION | S5_REQUEST => true
  | _ => false
  end.

(** Nothing is going on at either endpoint. *)
Definition quiet (w : World) : Prop :=
  closing (client_tcp w) = false
  /\ reading (client_tcp w) = false /\ reading (upstream_tcp w) = false
  /\ writes (client_tcp w) = [] /\ writes (upstream_tcp w) = [].

(** The handles before any close was requested. *)
Definition idle_handles (w : World) : Prop :=
  closing (client_tcp w) = false /\ closing (upstream_tcp w) = false
  /\ closed (client_tcp w) = false /\ closed (upstream_tcp w) = false
  /\ timer_release_req w = Build_Timer false false false
  /\ frees w = 0%nat.

(** A session that has not begun to close: in the handshake (reading with
    nothing in flight, or at most one reply in flight), in phase Ending with
    its last reply, waiting for the resolver or for the connect with both
    endpoints quiet, or streaming. *)
Definition open_inv (w : World) : Prop :=
  idle_handles w
  /\ ((handshake (state w) = true
       /\ upstream_addrinfo_req w = false /\ upstream_connect_req w = None
       /\ writes (upstream_tcp w) = [] /\ reading (upstream_tcp w) = false
       /\ ((reading (client_tcp w) = true /\ writes (client_tcp w) = [])
           \/ (reading (client_tcp w) = false
               /\ (length (writes (client_tcp w)) <= 1)%nat)))
      \/ (state w = S5_STREAMING_END
          /\ upstream_addrinfo_req w = false /\ upstream_connect_req w = None
          /\ writes (upstream_tcp w) = [] /\ reading (upstream_tcp w) = false
          /\ reading (client_tcp w) = false)
      \/ (state w = S5_REQUEST /\ quiet w
          /\ ((upstream_addrinfo_req w = true /\ upstream_connect_req w = None)
              \/ (upstream_addrinfo_req w = false
                  /\ upstream_connect_req w <> None)))
      \/ (state w = S5_STREAMING
          /\ upstream_addrinfo_req w = false /\ upstream_connect_req w = None)).

(** A session whose close has been requested: both endpoints are closing,
    no request is outstanding, an endpoint whose close has completed has no
    write left, and the session has not been freed while the release timer
    is untouched. *)
Definition closing_inv (w : World) : Prop :=
  closing (client_tcp w) = true /\ closing (upstream_tcp w) = true
  /\ upstream_addrinfo_req w = false /\ upstream_connect_req w = None
  /\ (closed (client_tcp w) = true -> writes (client_tcp w) = [])
  /\ (closed (upstream_tcp w) = true -> writes (upstream_tcp w) = [])
  /\ ((t_close_cb (timer_release_req w) = false /\ frees w = 0%nat)
      \/ t_armed (timer_release_req w) = true
      \/ t_closing (timer_release_req w) = true).

Definition session_inv (w : World) : Prop := open_inv w \/ closing_inv w.

(** Replacing the return codes and the history, which no invariant reads. *)
Definition set_log (o : list Z) (h : list Item) (w : World) : World :=
  Build_World (state w) (socks5_ctx w) (client_buf w) (client_tcp w)
    (upstream_tcp w) (upstream_addrinfo_req w) (upstream_connect_req w)
    (timer_release_req w) (frees w) o h.

(** No resolve and no connect is outstanding. *)
Definition no_request (w : World) : Prop :=
  upstream_addrinfo_req w = false /\ upstream_connect_req w = None.

(** [close_session] may be called: no request is outstanding. *)
Definition can_close (w : World) : Prop :=
  no_request w /\ (idle_handles w \/ closing_inv w).

(** An open session with nothing in flight at either endpoint. *)
Definition handshake_idle (w : World) : Prop :=
  idle_handles w /\ no_request w
  /\ reading (client_tcp w) = false /\ reading (upstream_tcp w) = false
  /\ writes (client_tcp w) = [] /\ writes (upstream_tcp w) = [].

(** An open session in phase Streaming. *)
Definition streaming_open (w : World) : Prop :=
  idle_handles w /\ no_request w /\ state w = S5_STREAMING.

(** *** The invariant as a check *)

Definition Timer_eqb (t : Timer) (a c b : bool) : bool :=
  Bool.eqb (t_armed t) a && Bool.eqb (t_closing t) c
  && Bool.eqb (t_close_cb t) b.

Definition idle_handlesb (w : World) : bool :=
  negb (closing (client_tcp w)) && negb (closing (upstream_tcp w))
  && negb (closed (client_tcp w)) && negb (closed (upstream_tcp w))
  && Timer_eqb (timer_release_req w) false false false
  && Nat.eqb (frees w) 0.

Definition no_requestb (w : World) : bool :=
  negb (upstream_addrinfo_req w) && negb (is_some (upstream_connect_req w)).

Definition open_invb (w : World) : bool :=
  idle_handlesb w
  && match state w with
     | S5_METHOD_IDENTIFICATION | S5_REQUEST =>
       (no_requestb w
        && is_nil (writes (upstream_tcp w)) && negb (reading (upstream_tcp w))
        && (if reading (client_tcp w) then is_nil (writes (client_tcp w))
            else Nat.leb (length (writes (client_tcp w))) 1))
       || (SessionState_eqb (state w) S5_REQUEST
           && negb (reading (client_tcp w)) && negb (reading (upstream_tcp w))
           && is_nil (writes (client_tcp w))
           && is_nil (writes (upstream_tcp w))
           && negb (Bool.eqb (upstream_addrinfo_req w)
                      (is_some (upstream_connect_req w))))
     | S5_STREAMING_END =>
       no_requestb w
       && is_nil (writes (upstream_tcp w)) && negb (reading (upstream_tcp w))
       && negb (reading (client_tcp w))
     | S5_STREAMING => no_requestb w
     end.

Definition closing_invb (w : World) : bool :=
  closing (client_tcp w) && closing (upstream_tcp w) && no_requestb w
  && implb (closed (client_tcp w)) (is_nil (writes (client_tcp w)))
  && implb (closed (upstream_tcp w)) (is_nil (writes (upstream_tcp w)))
  && (t_armed (timer_release_req w) || t_closing (timer_release_req w)
      || (negb (t_close_cb (timer_release_req w)) && Nat.eqb (frees w) 0)).

Definition session_invb (w : World) : bool := open_invb w || closing_invb w.

(** ** Reading the order of events in the history (newest first) *)











(** What is still to happen before a closing session is freed: write
    completions, the two close completions, the timer and its close. *)
Definition closing_measure (w : World) : nat :=
  3 * length (writes (client_tcp w)) + 3 * length (writes (upstream_tcp w))
  + (if closed (client_tcp w) then 0 else 3)
  + (if closed (upstream_tcp w) then 0 else 3)
  + (if t_armed (timer_release_req w) then 2 else 0)
  + (if t_close_cb (timer_release_req w) then 1 else 0).

(** The calls of [uv_timer_init] in a stretch of history. *)
Definition is_timer_init (it : Item) : bool :=
  match it with ICall CTimerInit => true | _ => false end.

Definition timer_inits (l : list Item) : nat :=
  length (filter is_timer_init l).

(** A session closed with no write in flight, anywhere along its release:
    the client close has not completed and the timer is untouched; or the
    client close has completed and the timer is armed, or closing with its
    close callback still to run, or closed with the session freed. *)
Definition quiet_closing (w : World) : Prop :=
  closing (client_tcp w) = true /\ closing (upstream_tcp w) = true
  /\ writes (client_tcp w) = [] /\ writes (upstream_tcp w) = []
  /\ upstream_addrinfo_req w = false /\ upstream_connect_req w = None
  /\ ((closed (client_tcp w) = false
       /\ timer_release_req w = Build_Timer false false false
       /\ frees w = 0%nat)
      \/ (closed (client_tcp w) = true
          /\ ((timer_release_req w = Build_Timer true false false
               /\ frees w = 0%nat)
              \/ (timer_release_req w = Build_Timer false true true
                  /\ frees w = 0%nat)
              \/ (timer_release_req w = Build_Timer false true false
                  /\ frees w = 1%nat)))).

(** A read error on the client endpoint right after accept, and the
    completions that follow the close it causes. *)
Definition read_error_run : list Event := [ EClientRead (-1) [] [] ].

Definition close_to_free : list Event :=
  [ EClientClosed; EUpstreamClosed; ETimerFire; ETimerClosed ].

(** The names handed to [uv_getaddrinfo]. *)
Fixpoint resolves_of (l : list Item) : list (list byte) :=
  match l with
  | [] => []
  | ICall (CGetaddrinfo n) :: r => n :: resolves_of r
  | _ :: r => resolves_of r
  end.

(** The changes of phase one completion can make: MethodNegotiation to
    Request (greeting accepted) or to Ending (no acceptable method), Request
    to Streaming (connect completed) or to Ending (error reply); otherwise
    the phase is kept. *)
Definition phase_step (a b : SessionState) : bool :=
  match a, b with
  | S5_METHOD_IDENTIFICATION, S5_METHOD_IDENTIFICATION => true
  | S5_METHOD_IDENTIFICATION, S5_REQUEST => true
  | S5_METHOD_IDENTIFICATION, S5_STREAMING_END => true
  | S5_REQUEST, S5_REQUEST => true
  | S5_REQUEST, S5_STREAMING => true
  | S5_REQUEST, S5_STREAMING_END => true
  | S5_STREAMING, S5_STREAMING => true
  | S5_STREAMING_END, S5_STREAMING_END => true
  | _, _ => false
  end.

(** ** The listener: [start_server] and [do_bind_and_listen] *)

(** The calls made while setting up the listening socket, each with the
    code it returned. *)
Inductive ListenCall : Type :=
| LTcpInit (err : Z)
| LBind (a : IPAddr) (err : Z)
| LListen (backlog : Z) (err : Z).

(** How [do_bind_and_listen] ends: it returns with the server listening, it
    calls [exit(1)], the [CHECK] on [uv_tcp_init] aborts, or it returns at
    once because the resolver failed. *)
Inductive ListenOutcome : Type :=
| Listening
| Exit1
| Aborted
| ResolveFailed.

Record Listener : Type := {
  l_ctx : ServerContext;
  l_calls : list ListenCall;   (* newest first *)
  l_outcome : ListenOutcome
}.

(** The context [start_server] sets up: zeroed, then the configuration. *)
Definition start_ctx (port backlog : Z) : ServerContext :=
  {| server_cfg := {| port := port; backlog := backlog |};
     bound_ip_ver := IPV4;
     bound_ip := repeat 0 16 |}.

Definition set_bound (v : IPVersion) (ip : list byte) (ctx : ServerContext)
  : ServerContext :=
  {| server_cfg := server_cfg ctx; bound_ip_ver := v; bound_ip := ip |}.

(** Bind, then listen, on one candidate; [rets] are the return codes of the
    calls to come, [k] is the rest of the loop, taken on either failure. *)
Definition bind_and_listen
  (k : list Z -> ServerContext -> list ListenCall -> Listener)
  (ipaddr : IPAddr) (rets : list Z) (ctx : ServerContext)
  (calls : list ListenCall) : Listener :=
  let err := hd 0 rets in
  let calls := LBind ipaddr err :: calls in
  if negb (err =? 0) then k (tl rets) ctx calls
  else
    let err := hd 0 (tl rets) in
    let calls := LListen (backlog (server_cfg ctx)) err :: calls in
    if negb (err =? 0) then k (tl (tl rets)) ctx calls
    else Build_Listener ctx calls Listening.

(** The candidate loop of [do_bind_and_listen]. *)
Fixpoint bind_candidates (P : Platform) (res : list addrinfo) (rets : list Z)
  (ctx : ServerContext) (calls : list ListenCall) : Listener :=
  match res with
  | [] => Build_Listener ctx calls Exit1
  | ai :: rest =>
    if ai_family ai =? AF_INET P then
      let ipaddr := Build_IPAddr (sa_family (ai_addr ai))
                      (sin_addr (ai_addr ai))
                      (htons (little_endian P) (port (server_cfg ctx))) in
      let ctx := set_bound IPV4
                   (memcpy (bound_ip ctx) 0 (sin_addr ipaddr) 4) ctx in
      bind_and_listen (bind_candidates P rest) ipaddr rets ctx calls
    else if ai_family ai =? AF_INET6 P then
      let ipaddr := Build_IPAddr (sa_family (ai_addr ai))
                      (sin_addr (ai_addr ai))
                      (htons (little_endian P) (port (server_cfg ctx))) in
      let ctx := set_bound IPV6
                   (memcpy (bound_ip ctx) 0 (sin_addr ipaddr) 16) ctx in
      bind_and_listen (bind_candidates P rest) ipaddr rets ctx calls
    else bind_candidates P rest rets ctx calls
  end.

Definition do_bind_and_listen (P : Platform) (status : Z)
  (res : list addrinfo) (rets : list Z) (ctx : ServerContext) : Listener :=
  if status <? 0 then Build_Listener ctx [] ResolveFailed
  else
    let err := hd 0 rets in
    if negb (err =? 0) then Build_Listener ctx [LTcpInit err] Aborted
    else bind_candidates P res (tl rets) ctx [LTcpInit err].

(** The code a call returned, and the first [n] return codes of a list (0
    when the list runs out). *)
Definition code_of (c : ListenCall) : Z :=
  match c with
  | LTcpInit err => err
  | LBind _ err => err
  | LListen _ err => err
  end.

Fixpoint take_codes (n : nat) (rets : list Z) : list Z :=
  match n with
  | O => []
  | S n => hd 0 rets :: take_codes n (tl rets)
  end.

(** The address length of a candidate the loop accepts. *)
Definition family_len (P : Platform) (ai : addrinfo) : nat :=
  if ai_family ai =? AF_INET P then 4%nat else 16%nat.

Definition family_ver (P : Platform) (ai : addrinfo) : IPVersion :=
  if ai_family ai =? AF_INET P then IPV4 else IPV6.

Definition eligible (P : Platform) (ai : addrinfo) : bool :=
  (ai_family ai =? AF_INET P) || (ai_family ai =? AF_INET6 P).

(** A resolved candidate carries at least the address bytes of its family. *)
Definition wf_candidate (P : Platform) (ai : addrinfo) : Prop :=
  eligible P ai = true ->
  (family_len P ai <= length (sin_addr (ai_addr ai)))%nat.

(** The socket address [do_bind_and_listen] builds for a candidate. *)
Definition listen_addr (P : Platform) (ctx : ServerContext) (ai : addrinfo)
  : IPAddr :=
  Build_IPAddr (sa_family (ai_addr ai)) (sin_addr (ai_addr ai))
    (htons (little_endian P) (port (server_cfg ctx))).

(** The calls of one candidate tried without success: its bind failed, or
    its bind succeeded and its listen failed. *)
Inductive failed_attempt (a : IPAddr) (backlog : Z)
  : list ListenCall -> Prop :=
| bind_failed err :
    err <> 0 -> failed_attempt a backlog [LBind a err]
| listen_failed err :
    err <> 0 -> failed_attempt a backlog [LBind a 0; LListen backlog err].

(** The calls, oldest first, of a stretch of the loop in which every
    address of the list was tried in order, without success. *)
Inductive failed_attempts (backlog : Z)
  : list IPAddr -> list ListenCall -> Prop :=
| no_attempt : failed_attempts backlog [] []
| next_attempt a l cs rest :
    failed_attempt a backlog cs ->
    failed_attempts backlog l rest ->
    failed_attempts backlog (a :: l) (cs ++ rest).

(** How the candidate loop ends, for any calls made before it; [new] are
    its own calls, oldest first.  Either every candidate of family INET or
    INET6 was tried without success and the loop ends in [exit(1)], or the
    candidates before some [ai] failed, the bind and the listen on [ai] both
    returned 0, and the context describes [ai]. *)
Definition loop_outcome (P : Platform) (res : list addrinfo)
  (rets : list Z) (ctx : ServerContext) (calls : list ListenCall)
  (r : Listener) : Prop :=
  server_cfg (l_ctx r) = server_cfg ctx
  /\ length (bound_ip (l_ctx r)) = 16%nat
  /\ exists new,
      l_calls r = rev new ++ calls
      /\ map code_of new = take_codes (length new) rets
      /\ ((l_outcome r = Exit1
           /\ failed_attempts (backlog (server_cfg ctx))
                (candidate_addrs P (port (server_cfg ctx)) res) new)
          \/ (l_outcome r = Listening
              /\ exists pre ai post cs,
                  res = pre ++ ai :: post
                  /\ eligible P ai = true
                  /\ new = cs ++ [LBind (listen_addr P ctx ai) 0;
                                  LListen (backlog (server_cfg ctx)) 0]
                  /\ failed_attempts (backlog (server_cfg ctx))
                       (candidate_addrs P (port (server_cfg ctx)) pre) cs
                  /\ bound_ip_ver (l_ctx r) = family_ver P ai
                  /\ firstn (family_len P ai) (bound_ip (l_ctx r))
                     = firstn (family_len P ai) (sin_addr (ai_addr ai)))).

(** * Properties *)

Lemma since_app (w w' : World) (cs : list Item) :
  history w' = cs ++ history w -> since w w' = rev cs.
Proof.
  intros H. unfold since. rewrite H, length_app.
  replace (length cs + length (history w) - length (history w))%nat
    with (length cs) by lia.
  rewrite firstn_app, Nat.sub_diag, firstn_all. simpl.
  now rewrite app_nil_r.
Qed.


Lemma writes_of_app (a b : list Item) :
  writes_of (a ++ b) = writes_of a ++ writes_of b.
Proof.
  induction a as [|[[]|] a IH]; simpl; auto. now rewrite IH.
Qed.

Lemma connects_of_app (a b : list Item) :
  connects_of (a ++ b) = connects_of a ++ connects_of b.
Proof.
  induction a as [|[[]|] a IH]; simpl; auto. now rewrite IH.
Qed.

Lemma read_starts_of_app (a b : list Item) :
  read_starts_of (a ++ b) = read_starts_of a ++ read_starts_of b.
Proof.
  induction a as [|[[]|] a IH]; simpl; auto. now rewrite IH.
Qed.

(** Splitting a history [l] that extends [h] into what was added. *)
Ltac prefix_of l h :=
  lazymatch l with
  | h => constr:(@nil Item)
  | ?a :: ?r => let cs := prefix_of r h in constr:(a :: cs)
  end.

Ltac give_prefix :=
  lazymatch goal with
  | |- exists cs, ?l = cs ++ ?h /\ _ =>
    let p := prefix_of l h in exists p
  end.

(** [close_session] leaves both handles closing, writes nothing and starts
    no read. *)
Lemma close_session_spec (w : World) :
  exists cs,
    history (close_session w) = cs ++ history w
    /\ writes_of cs = [] /\ read_starts_of cs = []
    /\ closing_both (close_session w) = true
    /\ state (close_session w) = state w
    /\ frees (close_session w) = frees w
    /\ connects_of cs = [].
Proof.
  unfold close_session, closing_both, uv_is_closing, schedule_release_timer.
  destruct w as [st cx cb [cc cd cr cw] [uc ud ur uw] ar cq tm fr orc h].
  destruct uc, cc; simpl; give_prefix; simpl; auto 10.
Qed.

Lemma writes_of_rev (l : list Item) : writes_of (rev l) = rev (writes_of l).
Proof.
  induction l as [|[[]|] l IH]; simpl; auto;
    rewrite writes_of_app, IH; simpl; auto using app_nil_r.
Qed.

Lemma connects_of_rev (l : list Item) : connects_of (rev l) = rev (connects_of l).
Proof.
  induction l as [|[[]|] l IH]; simpl; auto;
    rewrite connects_of_app, IH; simpl; auto using app_nil_r.
Qed.

Lemma read_starts_of_rev (l : list Item) :
  read_starts_of (rev l) = rev (read_starts_of l).
Proof.
  induction l as [|[[]|] l IH]; simpl; auto;
    rewrite read_starts_of_app, IH; simpl; auto using app_nil_r.
Qed.

Section Replies.

Variable P : Platform.

(** A write to the client: the write is logged, and on a refused write the
    session is closed at once. *)
Lemma client_write_start_spec (k : WriteKind) (buf : list byte) (w : World) :
  exists cs,
    history (snd (client_write_start k buf w)) = cs ++ history w
    /\ writes_of cs = [(Client, k, buf)] /\ read_starts_of cs = []
    /\ state (snd (client_write_start k buf w)) = state w
    /\ frees (snd (client_write_start k buf w)) = frees w
    /\ connects_of cs = [].
Proof.
  unfold client_write_start, uv_write, next_ret.
  destruct (oracle w) as [|r o]; simpl.
  - give_prefix; simpl; auto 10.
  - destruct (r =? 0) eqn:E; simpl; rewrite ?E; simpl.
    + give_prefix; simpl; auto 10.
    + match goal with |- context [close_session ?x] =>
        destruct (close_session_spec x)
          as (cs & Hh & Hw & Hr & _ & Hs & Hf & Hc)
      end.
      rewrite Hh, Hs, Hf. simpl.
      exists (cs ++ [ICall (CWrite Client k buf)]).
      rewrite <- app_assoc, writes_of_app, read_starts_of_app,
        connects_of_app, Hw, Hr, Hc.
      simpl; auto 10.
Qed.

Lemma client_write_error_spec (err : Z) (w : World) :
  exists cs,
    history (snd (client_write_error P err w)) = cs ++ history w
    /\ writes_of cs = [(Client, WError, error_reply P err)]
    /\ read_starts_of cs = []
    /\ state (snd (client_write_error P err w)) = S5_STREAMING_END
    /\ frees (snd (client_write_error P err w)) = frees w
    /\ connects_of cs = [].
Proof.
  unfold client_write_error, client_write_string.
  destruct (client_write_start_spec WError (firstn 10 (error_reply P err))
              (set_state S5_STREAMING_END w))
    as (cs & Hh & Hw & Hr & Hs & Hf & Hc).
  exists cs. rewrite Hh, Hs, Hf. simpl. auto 10.
Qed.

(** C6. Every error reply is written by [client_write_error]: it is the
    10-byte message VER=5, REP, RSV=0, ATYP=1 and six zero bytes for
    BND.ADDR and BND.PORT, and REP is 3 for network unreachable, 4 for host
    unreachable, 5 for connection refused, 7 for an unsupported command,
    8 for a bad ATYP and 1 for every other error code. *)
Theorem error_reply_format (Hd : case_labels_distinct P) (err : Z) (w : World) :
  writes_of (since w (snd (client_write_error P err w)))
    = [(Client, WError, [5; rep_of_error P err; 0; 1; 0; 0; 0; 0; 0; 0])]
  /\ length (error_reply P err) = 10%nat
  /\ (err = UV_ENETUNREACH P -> rep_of_error P err = 3)
  /\ (err = UV_EHOSTUNREACH P -> rep_of_error P err = 4)
  /\ (err = UV_ECONNREFUSED P -> rep_of_error P err = 5)
  /\ (err = S5_UNSUPPORTED_CMD P -> rep_of_error P err = 7)
  /\ (err = S5_BAD_ATYP P -> rep_of_error P err = 8)
  /\ (~ In err [UV_ENETUNREACH P; UV_EHOSTUNREACH P; UV_ECONNREFUSED P;
                S5_UNSUPPORTED_CMD P; S5_BAD_ATYP P] ->
      rep_of_error P err = 1).
Proof.
  unfold case_labels_distinct in Hd.
  repeat match goal with
         | H : NoDup (_ :: _) |- _ => inversion H; clear H; subst
         end.
  simpl in *.
  split.
  { destruct (client_write_error_spec err w) as (cs & Hh & Hw & _).
    rewrite (since_app _ _ _ Hh), writes_of_rev, Hw. reflexivity. }
  split; [reflexivity|].
  unfold rep_of_error.
  repeat split; intros He; subst;
    repeat match goal with
           | |- context [?a =? ?b] =>
             destruct (Z.eqb_spec a b); try reflexivity; try tauto;
             try (exfalso; subst; tauto); try (exfalso; intuition congruence)
           end.
Qed.

End Replies.

(** The labels are distinct on the Linux platform, and a refused connection
    there is reported with REP=5. *)
Lemma error_reply_format_witness :
  case_labels_distinct linux_le
  /\ rep_of_error linux_le (UV_ECONNREFUSED linux_le) = 5.
Proof.
  assert (Hd : case_labels_distinct linux_le).
  { unfold case_labels_distinct; simpl.
    repeat (constructor; [simpl; intuition discriminate|]). constructor. }
  split; [exact Hd|].
  exact (proj1 (proj2 (proj2 (proj2 (proj2
           (error_reply_format linux_le Hd (UV_ECONNREFUSED linux_le)
              (fresh zero_ctx zero_buf [])))))) eq_refl).
Defined.

Section Success_reply.

Variable P : Platform.

Lemma upstream_connect_cb_ok (g : ServerContext) (status : Z) (w : World) :
  0 <= status ->
  exists cs,
    history (upstream_connect_cb P g status w) = cs ++ history w
    /\ writes_of cs = [(Client, WSuccess, success_reply P g (client_buf w))]
    /\ read_starts_of cs = []
    /\ state (upstream_connect_cb P g status w) = S5_STREAMING
    /\ frees (upstream_connect_cb P g status w) = frees w
    /\ connects_of cs = [].
Proof.
  intros Hs. unfold upstream_connect_cb.
  destruct (Z.ltb_spec status 0) as [|_]; [lia|].
  match goal with |- context [client_write_start ?k ?b ?x] =>
    destruct (client_write_start_spec k b x)
      as (cs & Hh & Hw & Hr & Hst & Hf & Hc)
  end.
  exists cs. rewrite Hh, Hst, Hf. simpl. auto 10.
Qed.

(** C2, evaluated on the code.  For the server bound to 127.0.0.1 with the
    configured port 8789, a successful connect makes [upstream_connect_cb]
    write VER=5, REP=0, RSV=0, ATYP=1 and the bound address, followed by the
    first two bytes of the [int] port as it lies in memory: 55 22 on a
    little-endian host, 00 00 on a big-endian one, and on neither host the
    port in network byte order (22 55). *)
Theorem success_reply_port_in_host_order (w : World) (status : Z) :
  0 <= status ->
  (10 <= length (client_buf w))%nat ->
  let reply := [5; 0; 0; 1; 127; 0; 0; 1]
               ++ firstn 2 (int_bytes (little_endian P) SERVER_PORT) in
  writes_of (since w (upstream_connect_cb P loopback_ctx status w))
    = [(Client, WSuccess, reply)]
  /\ reply = (if little_endian P
              then [5; 0; 0; 1; 127; 0; 0; 1; 85; 34]
              else [5; 0; 0; 1; 127; 0; 0; 1; 0; 0])
  /\ reply <> [5; 0; 0; 1; 127; 0; 0; 1] ++ port_network_order SERVER_PORT
  /\ port_network_order SERVER_PORT = [34; 85].
Proof.
  intros Hs Hlen reply.
  assert (Hr : success_reply P loopback_ctx (client_buf w) = reply).
  { destruct (client_buf w) as [|b0 [|b1 [|b2 [|b3 [|b4 [|b5 [|b6 [|b7 [|b8
      [|b9 rest]]]]]]]]]]; simpl in Hlen; try lia.
    subst reply. unfold success_reply, success_buf, success_len. simpl.
    unfold int_bytes. destruct (little_endian P); reflexivity. }
  split.
  { destruct (upstream_connect_cb_ok loopback_ctx status w Hs)
      as (cs & Hh & Hw & _).
    rewrite (since_app _ _ _ Hh), writes_of_rev, Hw, Hr. reflexivity. }
  subst reply. unfold int_bytes.
  destruct (little_endian P); repeat split; try reflexivity; discriminate.
Qed.

End Success_reply.

Lemma success_reply_port_in_host_order_witness :
  writes_of (since (fresh zero_ctx zero_buf [])
               (upstream_connect_cb linux_le loopback_ctx 0
                  (fresh zero_ctx zero_buf [])))
  = [(Client, WSuccess, [5; 0; 0; 1; 127; 0; 0; 1; 85; 34])].
Proof.
  refine (proj1 (success_reply_port_in_host_order linux_le
                   (fresh zero_ctx zero_buf []) 0 _ _)).
  - lia.
  - vm_compute. lia.
Defined.

Section Relay.

Variable P : Platform.

Lemma upstream_write_start_spec (buf : list byte) (w : World) :
  exists cs,
    history (snd (upstream_write_start buf w)) = cs ++ history w
    /\ writes_of cs = [(Upstream, WRelay, buf)] /\ read_starts_of cs = []
    /\ state (snd (upstream_write_start buf w)) = state w
    /\ frees (snd (upstream_write_start buf w)) = frees w
    /\ connects_of cs = [].
Proof.
  unfold upstream_write_start, uv_write, next_ret.
  destruct (oracle w) as [|r o]; simpl.
  - give_prefix; simpl; auto 10.
  - destruct (r =? 0) eqn:E; simpl; rewrite ?E; simpl.
    + give_prefix; simpl; auto 10.
    + match goal with |- context [close_session ?x] =>
        destruct (close_session_spec x)
          as (cs & Hh & Hw & Hr & _ & Hs & Hf & Hc)
      end.
      rewrite Hh, Hs, Hf. simpl.
      exists (cs ++ [ICall (CWrite Upstream WRelay buf)]).
      rewrite <- app_assoc, writes_of_app, read_starts_of_app,
        connects_of_app, Hw, Hr, Hc.
      simpl; auto 10.
Qed.

(** C10. In phase Streaming a read completion of [n > 0] bytes hands
    exactly one write to the reactor, for the opposite endpoint and with
    exactly the [n] bytes read: a client read is written to the upstream
    endpoint, an upstream read to the client endpoint. *)
Theorem streaming_read_relays (w : World) (nread : Z) (buf : list byte) :
  state w = S5_STREAMING ->
  0 < nread ->
  nread <= Z.of_nat (length buf) ->
  let data := firstn (Z.to_nat nread) buf in
  Z.of_nat (length data) = nread
  /\ writes_of (since w (on_client_read_done P nread buf w))
     = [(Upstream, WRelay, data)]
  /\ writes_of (since w (on_upstream_read_done nread buf w))
     = [(Client, WRelay, data)].
Proof.
  intros Hst Hpos Hlen data.
  split; [subst data; rewrite length_firstn; lia|].
  destruct (Z.eqb_spec nread 0) as [|_]; [lia|].
  destruct (Z.ltb_spec nread 0) as [|_]; [lia|].
  split.
  - unfold on_client_read_done.
    destruct (Z.eqb_spec nread 0) as [|_]; [lia|].
    destruct (Z.ltb_spec nread 0) as [|_]; [lia|].
    replace (state (uv_read_stop Client w)) with S5_STREAMING
      by (now rewrite <- Hst).
    destruct (upstream_write_start_spec data (uv_read_stop Client w))
      as (cs & Hh & Hw & _).
    fold data.
    rewrite (since_app w _ (cs ++ [ICall (CReadStop Client)])).
    + rewrite writes_of_rev, writes_of_app, Hw. reflexivity.
    + rewrite Hh, <- app_assoc. reflexivity.
  - unfold on_upstream_read_done.
    destruct (Z.eqb_spec nread 0) as [|_]; [lia|].
    destruct (Z.ltb_spec nread 0) as [|_]; [lia|].
    replace (state (uv_read_stop Upstream w)) with S5_STREAMING
      by (now rewrite <- Hst).
    simpl orb. cbv iota.
    destruct (client_write_start_spec WRelay data (uv_read_stop Upstream w))
      as (cs & Hh & Hw & _).
    fold data.
    rewrite (since_app w _ (cs ++ [ICall (CReadStop Upstream)])).
    + rewrite writes_of_rev, writes_of_app, Hw. reflexivity.
    + rewrite Hh, <- app_assoc. reflexivity.
Qed.

End Relay.

Lemma streaming_read_relays_witness :
  writes_of (since (set_state S5_STREAMING (fresh zero_ctx zero_buf []))
               (on_client_read_done linux_le 5 [104; 101; 108; 108; 111]
                  (set_state S5_STREAMING (fresh zero_ctx zero_buf []))))
  = [(Upstream, WRelay, [104; 101; 108; 108; 111])].
Proof.
  refine (proj1 (proj2 (streaming_read_relays linux_le
            (set_state S5_STREAMING (fresh zero_ctx zero_buf []))
            5 [104; 101; 108; 108; 111] _ _ _))).
  - reflexivity.
  - lia.
  - simpl. lia.
Defined.

Section Handshake.

Variable P : Platform.

Lemma closing_both_close_session (w : World) :
  closing_both (close_session w) = true.
Proof. destruct (close_session_spec w) as (cs & _ & _ & _ & H & _). exact H. Qed.

(** A write completion in phase Ending closes the session, whatever its
    status. *)
Lemma write_done_in_ending_closes (status : Z) (rets : list Z) (w : World) :
  state w = S5_STREAMING_END ->
  on_client_write_done status (complete_write Client (set_oracle rets w))
  = close_session (complete_write Client (set_oracle rets w)).
Proof.
  intros H. unfold on_client_write_done.
  replace (state (complete_write Client (set_oracle rets w)))
    with S5_STREAMING_END by (now rewrite <- H).
  now rewrite orb_true_r.
Qed.

(** C7. A decoder error in phase MethodNegotiation closes the session and
    writes nothing to the client.  A decoder error in phase Request writes
    the SOCKS5 error reply for that error to the client, enters phase
    Ending, and the completion of that write, whatever its status, closes
    the session. *)
Theorem decoder_error_handling (w : World) (nread : Z) (buf : list byte) :
  0 < nread ->
  (state w = S5_METHOD_IDENTIFICATION ->
   fst (socks5_parse_method_identification P (socks5_ctx w) buf nread)
     <> S5_OK P ->
   let w' := on_client_read_done P nread buf w in
   writes_of (since w w') = [] /\ closing_both w' = true)
  /\
  (state w = S5_REQUEST ->
   fst (socks5_parse_request P (socks5_ctx w) buf nread) <> S5_OK P ->
   let err := fst (socks5_parse_request P (socks5_ctx w) buf nread) in
   let w' := on_client_read_done P nread buf w in
   writes_of (since w w') = [(Client, WError, error_reply P err)]
   /\ read_starts_of (since w w') = []
   /\ state w' = S5_STREAMING_END
   /\ forall status rets,
        closing_both
          (on_client_write_done status
             (complete_write Client (set_oracle rets w'))) = true).
Proof.
  intros Hpos.
  assert (E0 : (nread =? 0) = false) by lia.
  assert (E1 : (nread <? 0) = false) by lia.
  split; intros Hst Herr; unfold on_client_read_done; rewrite E0, E1;
    replace (state (uv_read_stop Client w)) with (state w) by reflexivity;
    rewrite Hst;
    replace (socks5_ctx (uv_read_stop Client w)) with (socks5_ctx w)
      by reflexivity.
  - destruct (socks5_parse_method_identification P (socks5_ctx w) buf nread)
      as [e c]; simpl in Herr.
    destruct (Z.eqb_spec e (S5_OK P)) as [|_]; [contradiction|]. simpl negb.
    cbv iota.
    match goal with |- context [close_session ?x] =>
      destruct (close_session_spec x) as (cs & Hh & Hw & Hr & Hc & _)
    end.
    split; [|exact Hc].
    rewrite (since_app w _ (cs ++ [ICall (CReadStop Client)])).
    + rewrite writes_of_rev, writes_of_app, Hw. reflexivity.
    + rewrite Hh, <- app_assoc. reflexivity.
  - destruct (socks5_parse_request P (socks5_ctx w) buf nread)
      as [e c]; simpl in Herr; cbn [fst].
    destruct (Z.eqb_spec e (S5_OK P)) as [|_]; [contradiction|]. simpl negb.
    cbv iota.
    match goal with |- context [client_write_error P e ?x] =>
      destruct (client_write_error_spec P e x) as (cs & Hh & Hw & Hr & Hs & _)
    end.
    assert (Hs' : since w
              (snd (client_write_error P e
                      (set_socks5_ctx c (uv_read_stop Client w))))
            = rev (cs ++ [ICall (CReadStop Client)])).
    { apply since_app. rewrite Hh, <- app_assoc. reflexivity. }
    rewrite Hs'.
    rewrite writes_of_rev, read_starts_of_rev, writes_of_app,
      read_starts_of_app, Hw, Hr.
    repeat split; auto.
    intros status rets.
    rewrite write_done_in_ending_closes by exact Hs.
    apply closing_both_close_session.
Qed.

(** C8. When the decoder has completed the greeting (it returns [S5_OK] in
    parse state FINISH, which it does only for VER=5 and NMETHODS >= 1) and
    its bitmap of offered methods has the no-auth bit, the two bytes 05 00
    are written to the client and the phase becomes Request; when the bit is
    missing, the two bytes 05 FF are written, the phase becomes Ending and
    the completion of that write closes the session. *)
Theorem greeting_method_selection (w : World) (nread : Z) (buf : list byte)
  (ctx' : Socks5Ctx) :
  0 < nread ->
  state w = S5_METHOD_IDENTIFICATION ->
  socks5_parse_method_identification P (socks5_ctx w) buf nread
    = (S5_OK P, ctx') ->
  s5_state ctx' = S5_PARSE_STATE_FINISH P ->
  let w' := on_client_read_done P nread buf w in
  (Z.land (methods ctx') (S5_AUTH_NONE P) <> 0 ->
   writes_of (since w w') = [(Client, WGreeting, [5; 0])]
   /\ state w' = S5_REQUEST)
  /\
  (Z.land (methods ctx') (S5_AUTH_NONE P) = 0 ->
   writes_of (since w w') = [(Client, WGreeting, [5; 255])]
   /\ state w' = S5_STREAMING_END
   /\ forall status rets,
        closing_both
          (on_client_write_done status
             (complete_write Client (set_oracle rets w'))) = true).
Proof.
  intros Hpos Hst Hparse Hfin w'. subst w'.
  assert (E0 : (nread =? 0) = false) by lia.
  assert (E1 : (nread <? 0) = false) by lia.
  unfold on_client_read_done. rewrite E0, E1.
  replace (state (uv_read_stop Client w)) with (state w) by reflexivity.
  rewrite Hst.
  replace (socks5_ctx (uv_read_stop Client w)) with (socks5_ctx w)
    by reflexivity.
  rewrite Hparse, Z.eqb_refl, Hfin, Z.eqb_refl. simpl negb. cbv iota.
  unfold client_write_string.
  split; intros Hbit.
  - destruct (Z.eqb_spec (Z.land (methods ctx') (S5_AUTH_NONE P)) 0)
      as [|_]; [contradiction|]. simpl negb. cbv iota.
    match goal with |- context [client_write_start ?k ?b ?x] =>
      destruct (client_write_start_spec k b x) as (cs & Hh & Hw & Hr & Hs & _)
    end.
    rewrite Hs. split; [|reflexivity].
    rewrite (since_app w _ (cs ++ [ICall (CReadStop Client)])).
    + rewrite writes_of_rev, writes_of_app, Hw. reflexivity.
    + rewrite Hh, <- app_assoc. reflexivity.
  - rewrite Hbit. simpl negb. cbv iota.
    match goal with |- context [client_write_start ?k ?b ?x] =>
      destruct (client_write_start_spec k b x) as (cs & Hh & Hw & Hr & Hs & _)
    end.
    rewrite Hs. split; [|split; [reflexivity|]].
    + rewrite (since_app w _ (cs ++ [ICall (CReadStop Client)])).
      * rewrite writes_of_rev, writes_of_app, Hw. reflexivity.
      * rewrite Hh, <- app_assoc. reflexivity.
    + intros status rets.
      rewrite write_done_in_ending_closes by exact Hs.
      apply closing_both_close_session.
Qed.

End Handshake.

(** A greeting with VER=4 closes without a reply; a BIND request is answered
    with REP=7. *)
Lemma decoder_error_handling_witness :
  (writes_of (since (fresh zero_ctx zero_buf [])
                (on_client_read_done linux_le 3 [4; 1; 0]
                   (fresh zero_ctx zero_buf []))) = []
   /\ closing_both (on_client_read_done linux_le 3 [4; 1; 0]
                      (fresh zero_ctx zero_buf [])) = true)
  /\ writes_of (since (set_state S5_REQUEST (fresh zero_ctx zero_buf []))
                  (on_client_read_done linux_le 10
                     [5; 2; 0; 1; 127; 0; 0; 1; 35; 40]
                     (set_state S5_REQUEST (fresh zero_ctx zero_buf []))))
     = [(Client, WError, [5; 7; 0; 1; 0; 0; 0; 0; 0; 0])].
Proof.
  split.
  - refine (proj1 (decoder_error_handling linux_le
                     (fresh zero_ctx zero_buf []) 3 [4; 1; 0] _) _ _).
    + lia.
    + reflexivity.
    + vm_compute. discriminate.
  - refine (proj1 (proj2 (decoder_error_handling linux_le
                     (set_state S5_REQUEST (fresh zero_ctx zero_buf []))
                     10 [5; 2; 0; 1; 127; 0; 0; 1; 35; 40] _) _ _)).
    + lia.
    + reflexivity.
    + vm_compute. discriminate.
Defined.

(** The greetings of scenarios S1 and S2: 05 01 00 is answered 05 00,
    05 01 02 is answered 05 FF. *)
Lemma greeting_method_selection_witness :
  (writes_of (since (fresh zero_ctx zero_buf [])
                (on_client_read_done linux_le 3 [5; 1; 0]
                   (fresh zero_ctx zero_buf [])))
   = [(Client, WGreeting, [5; 0])]
   /\ state (on_client_read_done linux_le 3 [5; 1; 0]
               (fresh zero_ctx zero_buf [])) = S5_REQUEST)
  /\ writes_of (since (fresh zero_ctx zero_buf [])
                  (on_client_read_done linux_le 3 [5; 1; 2]
                     (fresh zero_ctx zero_buf [])))
     = [(Client, WGreeting, [5; 255])].
Proof.
  split.
  - refine (proj1 (greeting_method_selection linux_le
                     (fresh zero_ctx zero_buf []) 3 [5; 1; 0]
                     (Build_Socks5Ctx 1 1 0 [] 0) _ _ _ _) _).
    + lia.
    + reflexivity.
    + reflexivity.
    + reflexivity.
    + vm_compute. discriminate.
  - refine (proj1 (proj2 (greeting_method_selection linux_le
                     (fresh zero_ctx zero_buf []) 3 [5; 1; 2]
                     (Build_Socks5Ctx 1 4 0 [] 0) _ _ _ _) _)).
    + lia.
    + reflexivity.
    + reflexivity.
    + reflexivity.
    + reflexivity.
Defined.

Section Connect.

Variable P : Platform.

(** The addresses tried are a prefix of the candidates. *)
Lemma attempt_walk_prefix (cands : list IPAddr) :
  forall rets err,
    exists n, fst (attempt_walk cands rets err) = firstn n cands.
Proof.
  induction cands as [|a r IH]; intros rets err; simpl.
  - now exists 0%nat.
  - destruct (hd 0 rets =? 0).
    + now exists 1%nat.
    + destruct (IH (tl rets) (hd 0 rets)) as [n Hn].
      destruct (attempt_walk r (tl rets) (hd 0 rets)) as [t o].
      exists (S n). simpl in *. now rewrite Hn.
Qed.

(** When the walk ends without an accepted call, every candidate was tried
    and refused, and the error in hand is that of the last call. *)
Lemma attempt_walk_exhausted (cands : list IPAddr) :
  forall rets err e,
    snd (attempt_walk cands rets err) = inr e ->
    fst (attempt_walk cands rets err) = cands
    /\ (forall i, (i < length cands)%nat -> nth i rets 0 <> 0)
    /\ e = match cands with
           | [] => err
           | _ => nth (length cands - 1) rets 0
           end.
Proof.
  induction cands as [|a r IH]; intros rets err e; simpl.
  - intros [= <-]. repeat split; auto. intros i Hi; lia.
  - destruct (Z.eqb_spec (hd 0 rets) 0) as [|Hnz]; [discriminate|].
    specialize (IH (tl rets) (hd 0 rets) e).
    destruct (attempt_walk r (tl rets) (hd 0 rets)) as [t o]. simpl in *.
    intros Ho. destruct (IH Ho) as (Ht & Hall & He). subst t.
    repeat split; auto.
    + intros [|i] Hi.
      * destruct rets; simpl in *; auto.
      * destruct rets; simpl in *; [destruct i; congruence|].
        apply Hall. lia.
    + rewrite He. destruct r as [|b r']; simpl.
      * destruct rets; reflexivity.
      * rewrite Nat.sub_0_r. destruct rets; simpl; auto.
        destruct (length r'); reflexivity.
Qed.

(** When a call was accepted it is the last one made, and every earlier call
    was refused. *)
Lemma attempt_walk_accepted (cands : list IPAddr) :
  forall rets err a,
    snd (attempt_walk cands rets err) = inl a ->
    exists n,
      fst (attempt_walk cands rets err) = firstn (S n) cands
      /\ nth_error cands n = Some a
      /\ nth n rets 0 = 0
      /\ forall i, (i < n)%nat -> nth i rets 0 <> 0.
Proof.
  induction cands as [|b r IH]; intros rets err a;
    [simpl; discriminate|].
  cbn [attempt_walk].
  destruct (Z.eqb_spec (hd 0 rets) 0) as [Hz|Hnz].
  - intros [= <-]. exists 0%nat. repeat split; try lia.
    destruct rets; simpl in *; auto.
  - specialize (IH (tl rets) (hd 0 rets) a).
    destruct (attempt_walk r (tl rets) (hd 0 rets)) as [t o].
    cbn [fst snd] in *.
    intros Ho. destruct (IH Ho) as (n & Ht & Hn & Hz & Hall).
    exists (S n). split; [|split; [|split]].
    + change (firstn (S (S n)) (b :: r)) with (b :: firstn (S n) r).
      now rewrite Ht.
    + exact Hn.
    + destruct rets; simpl in *; auto.
    + intros [|i] Hi.
      * destruct rets; simpl in *; auto.
      * destruct rets; simpl in *; [destruct i; congruence|].
        apply Hall. lia.
Qed.

Lemma connect_step_walk (a : IPAddr) (rest : list IPAddr)
  (k : Z -> World -> World) (err : Z) (w : World) :
  (forall e w1,
      oracle w1 = tl (oracle w) ->
      history w1 = ICall (CConnect a) :: history w ->
      state w1 = state w ->
      socks5_ctx w1 = socks5_ctx w ->
      exists cs, walk_outcome P (attempt_walk rest (tl (oracle w)) e)
                   w1 (k e w1) cs) ->
  exists cs,
    walk_outcome P (attempt_walk (a :: rest) (oracle w) err) w
      (let (e, w1) := upstream_connect a w in
       if negb (e =? 0) then k e w1 else w1) cs.
Proof.
  intros Hk. unfold upstream_connect, uv_tcp_connect, next_ret.
  cbn [attempt_walk].
  destruct (oracle w) as [|e o] eqn:Ho; cbn [hd tl] in *.
  - simpl. exists [ICall (CConnect a)]. unfold walk_outcome. simpl. auto.
  - destruct (e =? 0) eqn:He; simpl; rewrite ?He; simpl.
    + exists [ICall (CConnect a)]. unfold walk_outcome. simpl. auto.
    + match goal with |- context [k e ?x] =>
        destruct (Hk e x eq_refl eq_refl eq_refl eq_refl)
          as (cs & Hh & Hc & Hm);
          set (w1 := x) in *
      end.
      destruct (attempt_walk rest o e) as [t oe]. cbn [fst snd] in *.
      exists (cs ++ [ICall (CConnect a)]). unfold walk_outcome.
      cbn [fst snd].
      rewrite Hh, <- app_assoc, connects_of_app, Hc, writes_of_app, app_nil_r.
      split; [reflexivity|]. split; [reflexivity|].
      destruct oe; exact Hm.
Qed.

(** The loop of [upstream_connect_domain] against the walk. *)
Lemma connect_candidates_walk (res : list addrinfo) :
  forall err w,
    exists cs,
      walk_outcome P
        (attempt_walk (candidate_addrs P (dst_port (socks5_ctx w)) res)
           (oracle w) err)
        w (connect_candidates P res err w) cs.
Proof.
  induction res as [|ai rest IH]; intros err w.
  - simpl.
    destruct (client_write_error_spec P err w)
      as (cs & Hh & Hw & _ & Hs & _ & Hc).
    exists cs. unfold walk_outcome. simpl. rewrite Hh, Hc. auto.
  - assert (Hk : forall e w1,
      oracle w1 = tl (oracle w) ->
      history w1 = ICall (CConnect
        (Build_IPAddr (sa_family (ai_addr ai)) (sin_addr (ai_addr ai))
           (htons (little_endian P) (dst_port (socks5_ctx w))))) :: history w ->
      state w1 = state w ->
      socks5_ctx w1 = socks5_ctx w ->
      exists cs,
        walk_outcome P
          (attempt_walk (candidate_addrs P (dst_port (socks5_ctx w)) rest)
             (tl (oracle w)) e)
          w1 (connect_candidates P rest e w1) cs).
    { intros e w1 Ho Hh Hs Hc. destruct (IH e w1) as [cs Hcs].
      exists cs. now rewrite Hc, Ho in Hcs. }
    unfold candidate_addrs. cbn [connect_candidates filter].
    destruct (ai_family ai =? AF_INET P); cbn [orb map].
    + apply connect_step_walk. exact Hk.
    + destruct (ai_family ai =? AF_INET6 P); cbn [map].
      * apply connect_step_walk. exact Hk.
      * apply IH.
Qed.

Lemma upstream_connect_cb_err (g : ServerContext) (status : Z) (w : World) :
  status < 0 ->
  upstream_connect_cb P g status w = snd (client_write_error P status w).
Proof.
  intros H. unfold upstream_connect_cb.
  destruct (Z.ltb_spec status 0); [reflexivity|lia].
Qed.

(** The candidate loop as the code has it.  After a successful DNS query,
    [upstream_connect_domain] calls [tcp_connect] on the candidates of family
    INET or INET6 in list order until one call is accepted by the reactor
    (returns 0) and stops there: the addresses tried are a prefix of the
    candidates, every call before the accepted one was refused, and that
    connect is then outstanding with nothing written.  When every call is
    refused, the error reply for the error of the last call is written and
    the phase is Ending.  The completion of the accepted connect decides the
    session without any further attempt: success writes the success reply
    and enters Streaming, failure writes the error reply for that failure
    and enters Ending. *)
Theorem domain_connect_first_accepted (g : ServerContext) (w : World)
  (status : Z) (res : list addrinfo) (garbage : Z) :
  0 <= status ->
  let cands := candidate_addrs P (dst_port (socks5_ctx w)) res in
  let w' := upstream_connect_domain P status res garbage w in
  let tried := connects_of (since w w') in
  (exists n, tried = firstn n cands)
  /\ ((exists n a,
         tried = firstn (S n) cands
         /\ nth_error cands n = Some a
         /\ nth n (oracle w) 0 = 0
         /\ (forall i, (i < n)%nat -> nth i (oracle w) 0 <> 0)
         /\ upstream_connect_req w' = Some a
         /\ writes_of (since w w') = []
         /\ state w' = state w)
      \/
      (tried = cands
       /\ (forall i, (i < length cands)%nat -> nth i (oracle w) 0 <> 0)
       /\ writes_of (since w w')
          = [(Client, WError,
              error_reply P
                match cands with
                | [] => garbage
                | _ => nth (length cands - 1) (oracle w) 0
                end)]
       /\ state w' = S5_STREAMING_END))
  /\ (forall st w2, 0 <= st ->
        let w3 := upstream_connect_cb P g st w2 in
        connects_of (since w2 w3) = []
        /\ writes_of (since w2 w3)
           = [(Client, WSuccess, success_reply P g (client_buf w2))]
        /\ state w3 = S5_STREAMING)
  /\ (forall st w2, st < 0 ->
        let w3 := upstream_connect_cb P g st w2 in
        connects_of (since w2 w3) = []
        /\ writes_of (since w2 w3) = [(Client, WError, error_reply P st)]
        /\ state w3 = S5_STREAMING_END).
Proof.
  intros Hst cands w' tried.
  assert (Hw' : w' = connect_candidates P res garbage w).
  { subst w'. unfold upstream_connect_domain.
    destruct (Z.ltb_spec status 0); [lia|reflexivity]. }
  destruct (connect_candidates_walk res garbage w) as (cs & Hh & Hc & Hm).
  fold cands in Hc, Hm. rewrite <- Hw' in Hh, Hm.
  assert (Htried : tried = fst (attempt_walk cands (oracle w) garbage)).
  { subst tried. rewrite (since_app _ _ _ Hh), connects_of_rev, Hc.
    apply rev_involutive. }
  assert (Hwr : writes_of (since w w') = rev (writes_of cs)).
  { rewrite (since_app _ _ _ Hh). apply writes_of_rev. }
  split.
  { rewrite Htried. apply attempt_walk_prefix. }
  split.
  { destruct (snd (attempt_walk cands (oracle w) garbage)) as [a|e] eqn:Hsnd.
    - left. destruct (attempt_walk_accepted _ _ _ _ Hsnd)
        as (n & Hf & Hn & Hz & Hall).
      destruct Hm as (Hw & Hs & Hq).
      exists n, a. rewrite Htried, Hwr, Hw. auto 10.
    - right. destruct (attempt_walk_exhausted _ _ _ _ Hsnd)
        as (Hf & Hall & He).
      destruct Hm as (Hw & Hs).
      rewrite Htried, Hwr, Hw, <- He. auto. }
  split.
  - intros st w2 Hok w3.
    destruct (upstream_connect_cb_ok P g st w2 Hok)
      as (cs2 & Hh2 & Hw2 & _ & Hs2 & _ & Hc2).
    subst w3.
    rewrite (since_app _ _ _ Hh2), connects_of_rev, writes_of_rev, Hc2, Hw2.
    auto.
  - intros st w2 Hneg w3. subst w3.
    rewrite (upstream_connect_cb_err g st w2 Hneg).
    destruct (client_write_error_spec P st w2)
      as (cs2 & Hh2 & Hw2 & _ & Hs2 & _ & Hc2).
    rewrite (since_app _ _ _ Hh2), connects_of_rev, writes_of_rev, Hc2, Hw2.
    auto.
Qed.

End Connect.

(** C3, at the failing input.  The run [refused_first_candidate]: the
    resolver gave two candidates; [uv_tcp_connect] to the first returned 0,
    which the loop of [upstream_connect_domain] takes for a connection and
    returns; the connect then completes with ECONNREFUSED and is answered at
    once with the error reply REP=5.  The only connect attempted is the one
    to the first candidate: the second is never tried, where the claim has
    every candidate tried in order until a connect succeeds. *)
Lemma second_candidate_never_tried :
  exists w',
    run linux_le loopback_ctx accepted refused_first_candidate = Some w'
    /\ candidate_addrs linux_le 80 [cand_a; cand_b]
       = [Build_IPAddr 2 [127; 0; 0; 1] 20480;
          Build_IPAddr 2 [127; 0; 0; 2] 20480]
    /\ connects_of (rev (history w'))
       = [Build_IPAddr 2 [127; 0; 0; 1] 20480]
    /\ writes_of (rev (history w'))
       = [(Client, WGreeting, [5; 0]);
          (Client, WError, [5; 5; 0; 1; 0; 0; 0; 0; 0; 0])]
    /\ state w' = S5_STREAMING_END.
Proof.
  eexists. split; [vm_compute; reflexivity|].
  vm_compute. auto.
Qed.

(** Two candidates, the first call refused at once with ENETUNREACH, the
    second accepted. *)
Lemma domain_connect_first_accepted_witness :
  exists n,
    connects_of
      (since (set_oracle [-101; 0] (fresh zero_ctx zero_buf []))
         (upstream_connect_domain linux_le 0 [cand_a; cand_b] 0
            (set_oracle [-101; 0] (fresh zero_ctx zero_buf []))))
    = firstn n
        (candidate_addrs linux_le
           (dst_port (socks5_ctx
                        (set_oracle [-101; 0] (fresh zero_ctx zero_buf []))))
           [cand_a; cand_b]).
Proof.
  refine (proj1 (domain_connect_first_accepted linux_le loopback_ctx
                   (set_oracle [-101; 0] (fresh zero_ctx zero_buf []))
                   0 [cand_a; cand_b] 0 _)).
  lia.
Defined.

(** C5, evaluated on the code.  In the run [relay_prefix] the write of
    "hello" to the upstream endpoint is still in flight when the completion
    of a client write restarts the read on the client endpoint
    ([on_client_write_done] calls [client_read_start] in every phase); the
    next client read then hands a second write to the upstream endpoint
    while the first is outstanding. *)
Theorem client_read_resumed_during_upstream_write :
  exists w8 w9,
    run linux_le loopback_ctx accepted relay_prefix = Some w8
    /\ state w8 = S5_STREAMING
    /\ writes (upstream_tcp w8) = [[104; 101; 108; 108; 111]]
    /\ reading (client_tcp w8) = true
    /\ run linux_le loopback_ctx accepted overlapping_writes = Some w9
    /\ writes (upstream_tcp w9) = [[104; 101; 108; 108; 111]; [9]].
Proof.
  eexists. eexists.
  split; [vm_compute; reflexivity|].
  split; [reflexivity|]. split; [reflexivity|]. split; [reflexivity|].
  split; [vm_compute; reflexivity|]. reflexivity.
Qed.

(** ** The session invariant *)

Ltac break_if :=
  match goal with
  | |- context [if negb ?b then _ else _] => destruct b eqn:?
  | |- context [if ?b then _ else _] => destruct b eqn:?
  | |- context [match ?x with [] => _ | _ :: _ => _ end] =>
    is_var x; destruct x eqn:?
  end.

Ltac open_world w :=
  destruct w as [st cx cb [cc cd cr cw] [uc ud ur uw] ar cq [ta tc tb] fr orc h].

Ltac unfold_calls :=
  unfold client_write_error, client_write_string, client_write_start,
    upstream_write_start, client_read_start, upstream_read_start,
    upstream_connect, close_session, schedule_release_timer,
    client_handle_close_cb, release_timer_cb, release_timer_handle_close_cb,
    uv_write, uv_read_start, uv_read_stop, uv_close, uv_is_closing,
    uv_timer_init, uv_timer_start, uv_timer_close, uv_timer_is_closing,
    uv_getaddrinfo, uv_tcp_connect, uv_setup_call, uv_has_ref, free,
    next_ret, complete_write, complete_close in *.

Ltac unfold_inv :=
  unfold can_close, handshake_idle, streaming_open;
  unfold session_inv;
  unfold open_inv, closing_inv;
  unfold no_request, idle_handles, quiet, handshake.

Ltac unfold_inv_in H :=
  unfold can_close, handshake_idle, streaming_open in H;
  unfold session_inv in H;
  unfold open_inv, closing_inv in H;
  unfold no_request, idle_handles, quiet, handshake in H.

Ltac split_hyp H :=
  repeat match type of H with
         | _ /\ _ => let H1 := fresh "I" in destruct H as [H1 H]
         | _ \/ _ => destruct H as [H|H]
         end;
  repeat match goal with
         | I : _ /\ _ |- _ => destruct I
         | I : _ \/ _ |- _ => destruct I
         end.

Ltac bool_hyps :=
  repeat match goal with
         | H : _ && _ = true |- _ => apply andb_prop in H; destruct H
         | H : negb ?b = true |- _ =>
           is_var b; destruct b; simpl in *; try discriminate
         | H : negb ?b = false |- _ =>
           is_var b; destruct b; simpl in *; try discriminate
         | H : is_nil ?l = _ |- _ =>
           is_var l; destruct l; simpl in *; try discriminate
         | H : Build_Timer _ _ _ = Build_Timer _ _ _ |- _ =>
           first [discriminate H | injection H as ? ? ?; subst]
         | H : true = true -> _ |- _ => specialize (H eq_refl)
         | H : false = true -> _ |- _ => clear H
         | H : ?l = [] |- _ => is_var l; subst l
         | H : ?x = ?x |- _ => clear H
         | H : SessionState_eqb ?s _ = _ |- _ =>
           is_var s; destruct s; simpl in *; try discriminate
         | H : match ?s with S5_METHOD_IDENTIFICATION => _ | _ => _ end = _
           |- _ => is_var s; destruct s; simpl in *; try discriminate
         | H : (length ?l <= 1)%nat |- _ =>
           is_var l; destruct l as [|? [|? ?]]; simpl in *;
           [clear H | clear H | exfalso; lia]
         | H : _ || _ = false |- _ => apply orb_false_elim in H; destruct H
         end.

Lemma session_invb_sound (w : World) :
  session_invb w = true -> session_inv w.
Proof.
  open_world w.
  unfold session_invb, open_invb, closing_invb, idle_handlesb,
    no_requestb, Timer_eqb.
  unfold_inv. simpl.
  intros H. apply orb_prop in H. destruct H as [H|H]; [left|right].
  - destruct cc, uc, cd, ud, ta, tc, tb, fr; try discriminate H.
    split; [auto 10|].
    destruct st, ar, cq, cr, ur, uw; simpl in H; try discriminate H;
      try (destruct cw as [|? [|? ?]]; simpl in H; try discriminate H);
      simpl; intuition (try congruence; try discriminate; try lia).
  - destruct cc, uc, ar, cq; try discriminate H.
    destruct cd, ud, ta, tc, tb; simpl in H;
      try (destruct cw; simpl in H; try discriminate H);
      try (destruct uw; simpl in H; try discriminate H);
      try (destruct fr; simpl in H; try discriminate H);
      simpl; intuition (try congruence; try discriminate).
Qed.

(** Deciding the invariant of a world whose flags are known. *)
Ltac split_var :=
  match goal with
  | |- context [if ?b then _ else _] => is_var b; destruct b
  | |- context [negb ?b] => is_var b; destruct b
  | |- context [implb ?b _] => is_var b; destruct b
  | |- context [?b && _] => is_var b; destruct b
  | |- context [?b || _] => is_var b; destruct b
  | |- context [Bool.eqb ?b _] => is_var b; destruct b
  | |- context [SessionState_eqb ?s _] => is_var s; destruct s
  | |- context [match ?s with S5_METHOD_IDENTIFICATION => _ | _ => _ end] =>
    is_var s; destruct s
  end.

Ltac inv_finish :=
  apply session_invb_sound;
  unfold session_invb, open_invb, closing_invb, idle_handlesb,
    no_requestb, Timer_eqb;
  simpl;
  repeat (split_var; simpl in *);
  bool_hyps; simpl;
  try reflexivity; try congruence.

(** Preservation by cases: split the hypothesis into the modes of the
    session, run the calls on each, and check the result. *)
Ltac preserve_inv Hinv :=
  unfold_inv_in Hinv; simpl in Hinv; split_hyp Hinv; simpl in *; subst;
  try discriminate;
  unfold_calls; simpl in *; try discriminate;
  repeat (break_if; simpl in *; try discriminate);
  bool_hyps; try congruence; inv_finish.

Section Preservation.

Variable P : Platform.
Variable g : ServerContext.

Lemma inv_close_session (w : World) :
  can_close w -> session_inv (close_session w).
Proof. intros H. open_world w. preserve_inv H. Qed.

Lemma inv_client_write_start (k : WriteKind) (d : list byte) (w : World) :
  handshake_idle w \/ streaming_open w ->
  session_inv (snd (client_write_start k d w)).
Proof. intros H. open_world w. preserve_inv H. Qed.

Lemma inv_client_write_error (e : Z) (w : World) :
  handshake_idle w -> session_inv (snd (client_write_error P e w)).
Proof. intros H. open_world w. preserve_inv H. Qed.

Lemma inv_client_read_start (w : World) :
  (handshake_idle w /\ handshake (state w) = true) \/ streaming_open w ->
  session_inv (snd (client_read_start w)).
Proof. intros H. open_world w. preserve_inv H. Qed.

Lemma inv_upstream_write_start (d : list byte) (w : World) :
  streaming_open w -> session_inv (snd (upstream_write_start d w)).
Proof. intros H. open_world w. preserve_inv H. Qed.

Lemma inv_client_write_done (status : Z) (rets : list Z) (w : World) :
  session_inv w ->
  enabled w (EClientWriteDone status rets) = true ->
  session_inv (on_client_write_done status
                 (complete_write Client (set_oracle rets w))).
Proof.
  intros Hinv Hen. open_world w.
  unfold on_client_write_done, enabled in *.
  preserve_inv Hinv.
Qed.

Lemma inv_upstream_write_done (status : Z) (rets : list Z) (w : World) :
  session_inv w ->
  enabled w (EUpstreamWriteDone status rets) = true ->
  session_inv (on_upstream_write_done status
                 (complete_write Upstream (set_oracle rets w))).
Proof.
  intros Hinv Hen. open_world w.
  unfold on_upstream_write_done, enabled in *.
  preserve_inv Hinv.
Qed.

Lemma inv_upstream_read_done (nread : Z) (data : list byte) (rets : list Z)
  (w : World) :
  session_inv w ->
  enabled w (EUpstreamRead nread data rets) = true ->
  session_inv (on_upstream_read_done nread data (set_oracle rets w)).
Proof.
  intros Hinv Hen. open_world w.
  unfold on_upstream_read_done, enabled in *.
  preserve_inv Hinv.
Qed.

Lemma inv_handle_events (e : Event) (w : World) :
  session_inv w ->
  e = EClientClosed \/ e = EUpstreamClosed \/ e = ETimerFire
  \/ e = ETimerClosed ->
  enabled w e = true ->
  session_inv (deliver P g e w).
Proof.
  intros Hinv He Hen. open_world w.
  destruct He as [-> | [-> | [-> | ->]]];
    unfold deliver, enabled in *; preserve_inv Hinv.
Qed.

End Preservation.

(** Goals and hypotheses about the flags of a world built from [w]. *)
Ltac flags w :=
  open_world w;
  unfold can_close, handshake_idle, streaming_open, no_request, idle_handles,
    quiet, handshake in *;
  simpl in *;
  intuition (subst; simpl in *; try congruence; try discriminate).

Section Reachable_invariant.

Variable P : Platform.
Variable g : ServerContext.

Lemma inv_set_oracle (o : list Z) (w : World) :
  session_inv w -> session_inv (set_oracle o w).
Proof. intros H. open_world w. exact H. Qed.

Lemma inv_read_into (nread : Z) (data : list byte) (w : World) :
  session_inv w -> session_inv (read_into_client_buf nread data w).
Proof.
  intros H. unfold read_into_client_buf. destruct (0 <? nread); [|exact H].
  open_world w. exact H.
Qed.

Lemma enabled_read_into (nread : Z) (data : list byte) (w : World)
  (e : Event) :
  enabled (read_into_client_buf nread data w) e = enabled w e.
Proof.
  unfold read_into_client_buf. destruct (0 <? nread); [|reflexivity].
  open_world w. destruct e; reflexivity.
Qed.

(** What an enabled client read finds once it has stopped reading. *)
Lemma client_read_mode (w : World) :
  session_inv w ->
  reading (client_tcp w) && negb (closing (client_tcp w)) = true ->
  let x := uv_read_stop Client w in
  (handshake_idle x /\ handshake (state x) = true) \/ streaming_open x.
Proof.
  intros Hinv Hen. open_world w.
  unfold_inv_in Hinv. simpl in Hinv. split_hyp Hinv; simpl in *; subst;
    try discriminate; bool_hyps; try discriminate; try congruence;
    unfold handshake_idle, streaming_open, no_request, idle_handles, handshake;
    simpl; auto 20.
Qed.

Lemma inv_request_connect (w : World) :
  handshake_idle w -> state w = S5_REQUEST ->
  session_inv (request_connect P w).
Proof.
  intros H Hs. open_world w. simpl in Hs. subst st.
  unfold request_connect. preserve_inv H.
Qed.
Lemma inv_client_read_done (nread : Z) (data : list byte) (w : World) :
  session_inv w ->
  reading (client_tcp w) && negb (closing (client_tcp w)) = true ->
  session_inv (on_client_read_done P nread data w).
Proof.
  intros Hinv Hen. unfold on_client_read_done.
  destruct (nread =? 0); [exact Hinv|].
  pose proof (client_read_mode w Hinv Hen) as Hx. cbv zeta in Hx.
  set (x := uv_read_stop Client w) in *. clearbody x.
  destruct (nread <? 0).
  { apply inv_close_session. flags x. }
  destruct (state x) eqn:Hst.
  - destruct (socks5_parse_method_identification P (socks5_ctx x) data nread)
      as [e c].
    repeat (break_if; cbv beta iota zeta delta [negb]).
    + apply inv_client_write_start. left. flags x.
    + apply inv_client_write_start. left. flags x.
    + apply inv_client_read_start. left. flags x.
    + apply inv_close_session. flags x.
  - destruct (socks5_parse_request P (socks5_ctx x) data nread) as [e c].
    break_if; cbv beta iota zeta delta [negb].
    + apply inv_request_connect; flags x.
    + apply inv_client_write_error. flags x.
  - apply inv_upstream_write_start. flags x.
  - apply inv_close_session. flags x.
Qed.

Lemma connect_candidates_cases (res : list addrinfo) :
  forall err w,
    exists o h,
      (exists a, connect_candidates P res err w
                 = set_connect_req (Some a) (set_log o h w))
      \/ (exists e, connect_candidates P res err w
                    = snd (client_write_error P e (set_log o h w))).
Proof.
  induction res as [|ai rest IH]; intros err w.
  - exists (oracle w), (history w). right. exists err.
    destruct w; reflexivity.
  - assert (Htry : forall a,
      exists o h,
        (exists a', (let (e, w1) := upstream_connect a w in
                     if negb (e =? 0) then connect_candidates P rest e w1
                     else w1) = set_connect_req (Some a') (set_log o h w))
        \/ (exists e', (let (e, w1) := upstream_connect a w in
                        if negb (e =? 0) then connect_candidates P rest e w1
                        else w1)
                       = snd (client_write_error P e' (set_log o h w)))).
    { intros a. unfold upstream_connect, uv_tcp_connect, next_ret.
      destruct (oracle w) as [|e o] eqn:Ho.
      - simpl. exists (oracle w), (ICall (CConnect a) :: history w).
        left. exists a. reflexivity.
      - destruct (e =? 0) eqn:He; simpl; rewrite ?He; simpl.
        + exists o, (ICall (CConnect a) :: history w). left. exists a.
          reflexivity.
        + match goal with |- context [connect_candidates P rest e ?x] =>
            destruct (IH e x) as (o' & h' & Hc)
          end.
          exists o', h'. exact Hc. }
    cbn [connect_candidates].
    destruct (ai_family ai =? AF_INET P); [apply Htry|].
    destruct (ai_family ai =? AF_INET6 P); [apply Htry|]. apply IH.
Qed.

Lemma inv_resolve_done (status : Z) (res : list addrinfo) (garbage : Z)
  (rets : list Z) (w : World) :
  session_inv w ->
  enabled w (EResolveDone status res garbage rets) = true ->
  session_inv (upstream_connect_domain P status res garbage
                 (set_addrinfo_req false (set_oracle rets w))).
Proof.
  intros Hinv Hen.
  assert (Hx : forall lo lh,
            handshake_idle (set_log lo lh (set_addrinfo_req false w))
            /\ state w = S5_REQUEST).
  { intros lo lh. open_world w. unfold enabled in Hen.
    unfold_inv_in Hinv. simpl in *. subst.
    split_hyp Hinv; simpl in *; subst; try discriminate;
      try congruence; bool_hyps;
      unfold handshake_idle, no_request, idle_handles; simpl; auto 20. }
  unfold upstream_connect_domain.
  destruct (status <? 0).
  - apply inv_client_write_error.
    destruct (Hx rets (history w)) as [H _]. revert H. flags w.
  - destruct (connect_candidates_cases res garbage
                (set_addrinfo_req false (set_oracle rets w)))
      as (o & hh & [[a Ha]|[e He]]).
    + rewrite Ha. destruct (Hx o hh) as [H Hs]. clear Hx Ha.
      revert H Hs. generalize o, hh. clear. intros o hh H Hs.
      open_world w. simpl in *. subst. preserve_inv H.
    + rewrite He. apply inv_client_write_error.
      destruct (Hx o hh) as [H _]. revert H. flags w.
Qed.

Lemma inv_connect_done (status : Z) (rets : list Z) (w : World) :
  session_inv w ->
  enabled w (EConnectDone status rets) = true ->
  session_inv (upstream_connect_cb P g status
                 (set_connect_req None (set_oracle rets w))).
Proof.
  intros Hinv Hen.
  assert (Hx : handshake_idle (set_connect_req None (set_oracle rets w))).
  { open_world w. unfold enabled in Hen.
    unfold_inv_in Hinv. simpl in *.
    split_hyp Hinv; simpl in *; subst; try discriminate;
      try congruence; bool_hyps;
      unfold handshake_idle, no_request, idle_handles; simpl; auto 20. }
  unfold upstream_connect_cb.
  destruct (status <? 0).
  - now apply inv_client_write_error.
  - apply inv_client_write_start. right. revert Hx. flags w.
Qed.

Lemma inv_accept (ctx : Socks5Ctx) (buf : list byte) (rets : list Z) :
  session_inv (on_connection_new (fresh ctx buf rets)).
Proof.
  unfold on_connection_new, fresh, create_session_state.
  unfold_calls. simpl.
  repeat (break_if; simpl in *; try discriminate); inv_finish.
Qed.

(** The invariant holds in every world of an accepted connection. *)
Lemma reachable_inv (w : World) : reachable P g w -> session_inv w.
Proof.
  induction 1 as [ctx buf rets _|w e w' _ IH Hstep].
  - apply inv_accept.
  - unfold step in Hstep. destruct (enabled w e) eqn:Hen; [|discriminate].
    injection Hstep as <-.
    assert (IH' : session_inv (record (IEvent e) w))
      by (open_world w; exact IH).
    assert (Hen' : enabled (record (IEvent e) w) e = true)
      by (open_world w; exact Hen).
    destruct e;
      try solve [apply (inv_handle_events P g); [exact IH'|auto 6|exact Hen']];
      cbn [deliver].
    + cbv zeta. apply inv_client_read_done.
      * now apply inv_read_into, inv_set_oracle.
      * change (enabled (read_into_client_buf nread data
                           (set_oracle rets
                              (record (IEvent (EClientRead nread data rets))
                                 w)))
                  (EClientRead nread data rets) = true).
        rewrite enabled_read_into. open_world w. exact Hen.
    + now apply inv_client_write_done.
    + now apply inv_upstream_read_done.
    + now apply inv_upstream_write_done.
    + now apply inv_resolve_done.
    + now apply inv_connect_done.
Qed.

End Reachable_invariant.

Section Ending.

Variable P : Platform.
Variable g : ServerContext.




End Ending.




Section History.

Variable P : Platform.
Variable g : ServerContext.











(** A session waiting for the resolver or the connect is in phase Request
    and does not read from the client. *)
Lemma pending_request_state (w : World) :
  session_inv w ->
  upstream_addrinfo_req w = true \/ is_some (upstream_connect_req w) = true ->
  state w = S5_REQUEST /\ reading (client_tcp w) = false.
Proof.
  intros Hinv Hp. open_world w. unfold_inv_in Hinv. simpl in *.
  destruct Hp as [Hp|Hp];
    split_hyp Hinv; simpl in *; subst; try discriminate; auto;
    try congruence;
    match goal with H : ?q <> None |- _ => destruct q; auto; congruence end.
Qed.













End History.




Section Streaming.

Variable P : Platform.
Variable g : ServerContext.

Lemma reachable_run (es : list Event) :
  forall w w', reachable P g w -> run P g w es = Some w' -> reachable P g w'.
Proof.
  induction es as [|e es IH]; intros w w' Hr Hrun; simpl in Hrun.
  - now injection Hrun as <-.
  - destruct (step P g w e) as [w1|] eqn:Hs; [|discriminate].
    apply (IH w1); [|exact Hrun]. now apply (reach_step P g w e).
Qed.








End Streaming.


Section Lifecycle.

Variable P : Platform.
Variable g : ServerContext.

Lemma timer_inits_app (a b : list Item) :
  timer_inits (a ++ b) = (timer_inits a + timer_inits b)%nat.
Proof.
  unfold timer_inits. induction a as [|x a IH]; simpl; [reflexivity|].
  destruct (is_timer_init x); simpl; now rewrite IH.
Qed.

Lemma timer_inits_rev (l : list Item) : timer_inits (rev l) = timer_inits l.
Proof.
  induction l as [|x l IH]; [reflexivity|].
  simpl rev. rewrite timer_inits_app, IH.
  unfold timer_inits. simpl. destruct (is_timer_init x); simpl; lia.
Qed.

Ltac quiet_modes H :=
  unfold quiet_closing in H; simpl in H;
  destruct H as (-> & -> & -> & -> & -> & -> & H);
  split_hyp H; subst;
  repeat match goal with
         | H : Build_Timer _ _ _ = Build_Timer _ _ _ |- _ =>
           first [discriminate H | injection H as ? ? ?; subst]
         end.

(** One completion delivered to a session that is closing quietly: the
    session stays so, is closer to its release, and [uv_timer_init] is
    called exactly when the client close completes. *)
Lemma quiet_step (w w' : World) (e : Event) :
  quiet_closing w ->
  step P g w e = Some w' ->
  quiet_closing w'
  /\ (closing_measure w' < closing_measure w)%nat
  /\ exists cs,
      history w' = cs ++ history w
      /\ (timer_inits cs + (if closed (client_tcp w) then 1 else 0)
          = (if closed (client_tcp w') then 1 else 0))%nat.
Proof.
  intros H Hstep. unfold step in Hstep.
  destruct (enabled w e) eqn:Hen; [|discriminate]. injection Hstep as <-.
  open_world w. quiet_modes H;
    destruct e; simpl in Hen; rewrite ?andb_false_r in Hen;
    try discriminate Hen;
    unfold deliver; unfold_calls; simpl;
    (split; [unfold quiet_closing; simpl; auto 20|]);
    (split; [unfold closing_measure; simpl; destruct ud; simpl; lia|]);
    give_prefix; split; reflexivity.
Qed.

Lemma quiet_run (es : list Event) :
  forall w w',
    quiet_closing w ->
    run P g w es = Some w' ->
    quiet_closing w'
    /\ (length es + closing_measure w' <= closing_measure w)%nat
    /\ exists cs,
        history w' = cs ++ history w
        /\ (timer_inits cs + (if closed (client_tcp w) then 1 else 0)
            = (if closed (client_tcp w') then 1 else 0))%nat.
Proof.
  induction es as [|e es IH]; intros w w' H Hrun; simpl in Hrun.
  - injection Hrun as <-. split; [exact H|]. split; [simpl; lia|].
    exists []. split; [reflexivity|]. reflexivity.
  - destruct (step P g w e) as [w1|] eqn:Hs; [|discriminate].
    destruct (quiet_step w w1 e H Hs) as (H1 & Hm1 & cs1 & Hh1 & Hi1).
    destruct (IH w1 w' H1 Hrun) as (H' & Hm' & cs & Hh & Hi).
    split; [exact H'|]. split; [simpl; lia|].
    exists (cs ++ cs1). split; [now rewrite Hh, Hh1, app_assoc|].
    rewrite timer_inits_app. lia.
Qed.

(** A session that is closing quietly is either released, with nothing
    left to deliver, or has a completion to come. *)
Lemma quiet_progress (w : World) :
  quiet_closing w ->
  ((forall e, enabled w e = false)
   /\ frees w = 1%nat
   /\ closed (client_tcp w) = true /\ closed (upstream_tcp w) = true)
  \/ (exists e, enabled w e = true).
Proof.
  intros H. open_world w. quiet_modes H.
  - right. exists EClientClosed. reflexivity.
  - right. exists ETimerFire. reflexivity.
  - right. exists ETimerClosed. reflexivity.
  - destruct ud.
    + left. split; [|auto].
      intros []; simpl; rewrite ?andb_false_r; reflexivity.
    + right. exists EUpstreamClosed. reflexivity.
Qed.

Lemma quiet_frees (w : World) : quiet_closing w -> (frees w <= 1)%nat.
Proof.
  intros H. open_world w. quiet_modes H; simpl; lia.
Qed.

Lemma quiet_reaches_release (n : nat) :
  forall w,
    quiet_closing w -> (closing_measure w <= n)%nat ->
    exists es w', run P g w es = Some w' /\ forall e, enabled w' e = false.
Proof.
  induction n as [|n IH]; intros w H Hm;
    destruct (quiet_progress w H) as [[Hq _]|[e He]].
  - exists [], w. auto.
  - destruct (step P g w e) as [w1|] eqn:Hs;
      [|unfold step in Hs; rewrite He in Hs; discriminate].
    destruct (quiet_step w w1 e H Hs) as (_ & Hlt & _). lia.
  - exists [], w. auto.
  - destruct (step P g w e) as [w1|] eqn:Hs;
      [|unfold step in Hs; rewrite He in Hs; discriminate].
    destruct (quiet_step w w1 e H Hs) as (H1 & Hlt & _).
    destruct (IH w1 H1) as (es & w' & Hrun & Hq); [lia|].
    exists (e :: es), w'. simpl. rewrite Hs. auto.
Qed.

(** A session of an accepted connection whose close was requested while no
    write was in flight, the release timer being untouched: whatever
    completions the reactor delivers and in whatever order, there are at
    most [closing_measure] of them, [uv_timer_init] is called at most once
    (the timer is never initialised again while the reactor holds it), the
    session is never freed twice, and when nothing is left to deliver both
    endpoints have closed and the session has been freed exactly once.
    Some sequence of completions gets there. *)
Theorem quiet_close_frees_once (w : World) :
  reachable P g w ->
  closing (client_tcp w) = true ->
  closed (client_tcp w) = false ->
  writes (client_tcp w) = [] ->
  writes (upstream_tcp w) = [] ->
  timer_release_req w = Build_Timer false false false ->
  (forall es w',
      run P g w es = Some w' ->
      (length es + closing_measure w' <= closing_measure w)%nat
      /\ (frees w' <= 1)%nat
      /\ (timer_inits (since w w') <= 1)%nat
      /\ ((forall e, enabled w' e = false) ->
          frees w' = 1%nat
          /\ closed (client_tcp w') = true
          /\ closed (upstream_tcp w') = true))
  /\ (exists es w',
         run P g w es = Some w' /\ forall e, enabled w' e = false).
Proof.
  intros Hr Hc Hd Hcw Huw Ht.
  assert (Hq : quiet_closing w).
  { pose proof (reachable_inv P g w Hr) as Hinv.
    open_world w. simpl in Hc, Hd, Hcw, Huw, Ht. subst.
    injection Ht as -> -> ->.
    unfold_inv_in Hinv. simpl in Hinv.
    split_hyp Hinv; simpl in *; subst; try discriminate;
      unfold quiet_closing; simpl; auto 20. }
  split.
  - intros es w' Hrun.
    destruct (quiet_run es w w' Hq Hrun) as (Hq' & Hm & cs & Hh & Hi).
    split; [exact Hm|]. split; [now apply quiet_frees|]. split.
    + rewrite (since_app w w' cs Hh), timer_inits_rev.
      rewrite Hd in Hi. destruct (closed (client_tcp w')); lia.
    + intros Hn. destruct (quiet_progress w' Hq') as [[_ H]|[e He]];
        [exact H|]. rewrite Hn in He. discriminate.
  - now apply (quiet_reaches_release (closing_measure w)).
Qed.

(** While an endpoint of an accepted connection is not closing, the session
    has not been freed and its release timer has not been touched. *)
Theorem open_session_not_freed (w : World) :
  reachable P g w ->
  closing_both w = false ->
  frees w = 0%nat
  /\ timer_release_req w = Build_Timer false false false.
Proof.
  intros Hr Hc. pose proof (reachable_inv P g w Hr) as Hinv.
  open_world w. unfold closing_both in Hc. simpl in Hc.
  unfold_inv_in Hinv. simpl in Hinv.
  destruct Hinv as [Hinv|Hinv].
  - destruct Hinv as ((_ & _ & _ & _ & Ht & Hf) & _). auto.
  - destruct Hinv as (-> & -> & _). discriminate Hc.
Qed.

(** [close_session] frees nothing itself and leaves both endpoints closing.
    Called on a session whose endpoints are not closing it stops both reads
    and closes both endpoints; called again it closes neither endpoint a
    second time: it stops the reads and schedules the release timer. *)
Theorem close_session_reentrant (w : World) :
  frees (close_session w) = frees w
  /\ closing_both (close_session w) = true
  /\ (closing (client_tcp w) = false -> closing (upstream_tcp w) = false ->
      since w (close_session w)
      = [ICall (CReadStop Upstream); ICall (CClose Upstream);
         ICall (CReadStop Client); ICall (CClose Client)]
      /\ timer_release_req (close_session w) = timer_release_req w)
  /\ (closing_both w = true ->
      since w (close_session w)
      = [ICall (CReadStop Upstream); ICall (CReadStop Client);
         ICall CTimerInit; ICall CTimerStart]
      /\ t_armed (timer_release_req (close_session w)) = true
      /\ t_closing (timer_release_req (close_session w)) = false).
Proof.
  destruct (close_session_spec w) as (cs & _ & _ & _ & Hc & _ & Hf & _).
  split; [exact Hf|]. split; [exact Hc|].
  unfold closing_both, close_session, uv_is_closing, schedule_release_timer.
  open_world w. simpl. split.
  - intros -> ->. simpl. split; [|reflexivity].
    now rewrite (since_app _ _ [ICall (CClose Client);
                                ICall (CReadStop Client);
                                ICall (CClose Upstream);
                                ICall (CReadStop Upstream)]).
  - intros H. apply andb_prop in H. destruct H as [-> ->]. simpl.
    split; [|auto].
    now rewrite (since_app _ _ [ICall CTimerStart; ICall CTimerInit;
                                ICall (CReadStop Client);
                                ICall (CReadStop Upstream)]).
Qed.

End Lifecycle.

(** The second of two calls on the accepted session schedules the timer. *)
Lemma close_session_reentrant_witness :
  since (close_session accepted) (close_session (close_session accepted))
  = [ICall (CReadStop Upstream); ICall (CReadStop Client);
     ICall CTimerInit; ICall CTimerStart].
Proof.
  refine (proj1 (proj2 (proj2 (proj2
            (close_session_reentrant (close_session accepted)))) _)).
  reflexivity.
Defined.

Lemma accepted_reachable : reachable linux_le loopback_ctx accepted.
Proof. apply reach_accept. reflexivity. Qed.

(** A read error right after accept closes the session with nothing in
    flight; both close completions, the timer and its close then free it
    once, with one [uv_timer_init]. *)
Lemma quiet_close_frees_once_witness :
  exists w w',
    run linux_le loopback_ctx accepted read_error_run = Some w
    /\ run linux_le loopback_ctx w close_to_free = Some w'
    /\ (frees w' <= 1)%nat
    /\ (timer_inits (since w w') <= 1)%nat.
Proof.
  destruct (run linux_le loopback_ctx accepted read_error_run)
    as [w|] eqn:Hrun; [|vm_compute in Hrun; discriminate].
  destruct (run linux_le loopback_ctx w close_to_free) as [w'|] eqn:Hrun';
    [|vm_compute in Hrun; injection Hrun as <-; vm_compute in Hrun';
      discriminate].
  exists w, w'. split; [reflexivity|]. split; [exact Hrun'|].
  assert (Hw : reachable linux_le loopback_ctx w)
    by exact (reachable_run linux_le loopback_ctx read_error_run accepted w
                accepted_reachable Hrun).
  assert (Hf : closing (client_tcp w) = true
               /\ closed (client_tcp w) = false
               /\ writes (client_tcp w) = []
               /\ writes (upstream_tcp w) = []
               /\ timer_release_req w = Build_Timer false false false).
  { vm_compute in Hrun. injection Hrun as <-. repeat split. }
  destruct Hf as (H1 & H2 & H3 & H4 & H5).
  destruct (proj1 (quiet_close_frees_once linux_le loopback_ctx w
                     Hw H1 H2 H3 H4 H5) close_to_free w' Hrun')
    as (_ & Hfr & Hti & _).
  split; [exact Hfr|exact Hti].
Defined.

(** The accepted session, reading and not closing, has not been freed. *)
Lemma open_session_not_freed_witness :
  closing_both accepted = false /\ frees accepted = 0%nat.
Proof.
  split; [reflexivity|].
  exact (proj1 (open_session_not_freed linux_le loopback_ctx accepted
                  accepted_reachable eq_refl)).
Defined.

Ltac since_compute :=
  repeat match goal with
         | |- context [since ?a ?b] =>
           let ha := eval simpl in (history a) in
           let hb := eval simpl in (history b) in
           let p := prefix_of hb ha in
           rewrite (since_app a b p) by reflexivity
         end.

Section Completions.

Variable P : Platform.

Lemma client_read_start_spec (w : World) :
  exists cs,
    history (snd (client_read_start w)) = cs ++ history w
    /\ read_starts_of cs = [Client] /\ writes_of cs = []
    /\ state (snd (client_read_start w)) = state w.
Proof.
  unfold client_read_start, uv_read_start, next_ret.
  destruct (oracle w) as [|r o]; simpl.
  - give_prefix; simpl; auto.
  - destruct (r =? 0) eqn:E; simpl; rewrite ?E; simpl.
    + give_prefix; simpl; auto.
    + match goal with |- context [close_session ?x] =>
        destruct (close_session_spec x) as (cs & Hh & Hw & Hr & _ & Hs & _)
      end.
      rewrite Hh, Hs. simpl.
      exists (cs ++ [ICall (CReadStart Client)]).
      rewrite <- app_assoc, writes_of_app, read_starts_of_app, Hw, Hr.
      simpl; auto.
Qed.

Lemma upstream_read_start_spec (w : World) :
  exists cs,
    history (snd (upstream_read_start w)) = cs ++ history w
    /\ read_starts_of cs = [Upstream] /\ writes_of cs = []
    /\ state (snd (upstream_read_start w)) = state w.
Proof.
  unfold upstream_read_start, uv_read_start, next_ret.
  destruct (oracle w) as [|r o]; simpl.
  - give_prefix; simpl; auto.
  - destruct (r =? 0) eqn:E; simpl; rewrite ?E; simpl.
    + give_prefix; simpl; auto.
    + match goal with |- context [close_session ?x] =>
        destruct (close_session_spec x) as (cs & Hh & Hw & Hr & _ & Hs & _)
      end.
      rewrite Hh, Hs. simpl.
      exists (cs ++ [ICall (CReadStart Upstream)]).
      rewrite <- app_assoc, writes_of_app, read_starts_of_app, Hw, Hr.
      simpl; auto.
Qed.

(** A write completion with a negative status goes to [close_session] in
    every phase.  A successful one restarts the client read; in the
    handshake phases that is all it does, in phase Streaming it also starts
    the upstream read, and it does so even when the client read could not
    be started and the session was closed in between.  A successful
    upstream write completion restarts the client read only. *)
Theorem write_completion_restarts_reads (w : World) (status : Z) :
  (status < 0 ->
   on_client_write_done status w = close_session w
   /\ on_upstream_write_done status w = close_session w)
  /\ (0 <= status -> handshake (state w) = true ->
      read_starts_of (since w (on_client_write_done status w)) = [Client]
      /\ writes_of (since w (on_client_write_done status w)) = [])
  /\ (0 <= status -> state w = S5_STREAMING ->
      read_starts_of (since w (on_client_write_done status w))
      = [Client; Upstream]
      /\ writes_of (since w (on_client_write_done status w)) = [])
  /\ (0 <= status -> state w <> S5_STREAMING_END ->
      read_starts_of (since w (on_upstream_write_done status w)) = [Client]
      /\ writes_of (since w (on_upstream_write_done status w)) = []).
Proof.
  unfold on_client_write_done, on_upstream_write_done.
  split; [|split; [|split]].
  - intros Hs. replace (status <? 0) with true by lia. auto.
  - intros Hs Hh. replace (status <? 0) with false by lia.
    destruct (client_read_start_spec w) as (cs & H1 & H2 & H3 & H4).
    destruct (client_read_start w) as [r x]. cbn [snd] in *.
    rewrite H4.
    destruct (state w); try discriminate; cbn [SessionState_eqb orb];
      rewrite (since_app _ _ _ H1), read_starts_of_rev, writes_of_rev, H2, H3;
      auto.
  - intros Hs Hst. replace (status <? 0) with false by lia.
    destruct (client_read_start_spec w) as (cs & H1 & H2 & H3 & H4).
    destruct (client_read_start w) as [r x]. cbn [snd] in *.
    rewrite H4, Hst. cbn [SessionState_eqb orb].
    destruct (upstream_read_start_spec x) as (cs2 & G1 & G2 & G3 & G4).
    rewrite H1, app_assoc in G1.
    rewrite (since_app _ _ _ G1), read_starts_of_rev, writes_of_rev,
      read_starts_of_app, writes_of_app, H2, H3, G2, G3.
    auto.
  - intros Hs Hst. replace (status <? 0) with false by lia.
    destruct (client_read_start_spec w) as (cs & H1 & H2 & H3 & H4).
    destruct (state w); try congruence; cbn [SessionState_eqb orb];
      rewrite (since_app _ _ _ H1), read_starts_of_rev, writes_of_rev, H2, H3;
      auto.
Qed.

(** A zero-length read completion changes nothing on either endpoint: the
    read is not stopped and nothing is written.  A read error in any phase
    stops the read and closes the session without writing anything. *)
Theorem read_zero_ignored_read_error_closes (w : World) (buf : list byte) :
  on_client_read_done P 0 buf w = w
  /\ on_upstream_read_done 0 buf w = w
  /\ forall nread, nread < 0 ->
       on_client_read_done P nread buf w
       = close_session (uv_read_stop Client w)
       /\ on_upstream_read_done nread buf w
          = close_session (uv_read_stop Upstream w)
       /\ writes_of (since w (on_client_read_done P nread buf w)) = []
       /\ writes_of (since w (on_upstream_read_done nread buf w)) = []
       /\ read_starts_of (since w (on_client_read_done P nread buf w)) = []
       /\ read_starts_of (since w (on_upstream_read_done nread buf w)) = [].
Proof.
  split; [reflexivity|]. split; [reflexivity|].
  intros nread Hn. unfold on_client_read_done, on_upstream_read_done.
  replace (nread =? 0) with false by lia.
  replace (nread <? 0) with true by lia. cbn [orb].
  split; [reflexivity|]. split; [reflexivity|].
  destruct (close_session_spec (uv_read_stop Client w))
    as (c1 & H1 & W1 & R1 & _).
  destruct (close_session_spec (uv_read_stop Upstream w))
    as (c2 & H2 & W2 & R2 & _).
  rewrite (since_app w _ (c1 ++ [ICall (CReadStop Client)]))
    by (rewrite H1, <- app_assoc; reflexivity).
  rewrite (since_app w _ (c2 ++ [ICall (CReadStop Upstream)]))
    by (rewrite H2, <- app_assoc; reflexivity).
  rewrite !writes_of_rev, !read_starts_of_rev, !writes_of_app,
    !read_starts_of_app, W1, W2, R1, R2.
  auto.
Qed.

(** A failed DNS query is answered with the error reply for its status and
    no connect is attempted, whatever candidates came with it. *)
Theorem resolve_failure_reply (w : World) (status : Z)
  (res : list addrinfo) (garbage : Z) :
  status < 0 ->
  let w' := upstream_connect_domain P status res garbage w in
  connects_of (since w w') = []
  /\ writes_of (since w w') = [(Client, WError, error_reply P status)]
  /\ read_starts_of (since w w') = []
  /\ state w' = S5_STREAMING_END.
Proof.
  intros Hs w'. subst w'. unfold upstream_connect_domain.
  replace (status <? 0) with true by lia.
  destruct (client_write_error_spec P status w)
    as (cs & Hh & Hw & Hr & Hst & _ & Hc).
  rewrite (since_app _ _ _ Hh), connects_of_rev, writes_of_rev,
    read_starts_of_rev, Hc, Hw, Hr.
  auto.
Qed.

End Completions.

Section Request.

Variable P : Platform.

(** In phase Request, once the decoder returns [S5_OK], the callback acts on
    the address type at once and never restarts the client read: an IPv4 or
    IPv6 request makes one connect call to the first 4 or 16 bytes of the
    destination with the port through [htons] and no DNS query, a domain
    request makes one DNS query for the destination read as a C string and
    no connect call, and any other address type is answered with the error
    reply for the code 20000.  When the call made is refused at once, the
    error reply for its return code is written and the phase is Ending;
    otherwise nothing is written and the phase stays Request. *)
Theorem request_dispatch (w : World) (nread : Z) (buf : list byte)
  (c : Socks5Ctx) :
  state w = S5_REQUEST ->
  0 < nread ->
  socks5_parse_request P (socks5_ctx w) buf nread = (S5_OK P, c) ->
  let w' := on_client_read_done P nread buf w in
  let new := since w w' in
  let r := hd 0 (oracle w) in
  read_starts_of new = []
  /\ (atyp c = S5_ATYP_IPV4 P ->
      connects_of new
      = [Build_IPAddr (AF_INET P) (firstn 4 (dst_addr c))
           (htons (little_endian P) (dst_port c))]
      /\ resolves_of new = [])
  /\ (atyp c <> S5_ATYP_IPV4 P -> atyp c = S5_ATYP_DOMAIN P ->
      resolves_of new = [c_string (dst_addr c)] /\ connects_of new = [])
  /\ (atyp c <> S5_ATYP_IPV4 P -> atyp c <> S5_ATYP_DOMAIN P ->
      atyp c = S5_ATYP_IPV6 P ->
      connects_of new
      = [Build_IPAddr (AF_INET6 P) (firstn 16 (dst_addr c))
           (htons (little_endian P) (dst_port c))]
      /\ resolves_of new = [])
  /\ (atyp c <> S5_ATYP_IPV4 P -> atyp c <> S5_ATYP_DOMAIN P ->
      atyp c <> S5_ATYP_IPV6 P ->
      connects_of new = [] /\ resolves_of new = []
      /\ writes_of new = [(Client, WError, error_reply P 20000)]
      /\ state w' = S5_STREAMING_END)
  /\ (atyp c = S5_ATYP_IPV4 P \/ atyp c = S5_ATYP_DOMAIN P
      \/ atyp c = S5_ATYP_IPV6 P ->
      (r = 0 -> writes_of new = [] /\ state w' = S5_REQUEST)
      /\ (r <> 0 ->
          writes_of new = [(Client, WError, error_reply P r)]
          /\ state w' = S5_STREAMING_END)).
Proof.
  intros Hst Hpos Hparse w' new r. subst w' new r.
  unfold on_client_read_done.
  replace (nread =? 0) with false by lia.
  replace (nread <? 0) with false by lia.
  replace (state (uv_read_stop Client w)) with S5_REQUEST
    by (now rewrite <- Hst).
  replace (socks5_ctx (uv_read_stop Client w)) with (socks5_ctx w)
    by reflexivity.
  rewrite Hparse, Z.eqb_refl. cbn [negb].
  unfold request_connect.
  replace (socks5_ctx (set_socks5_ctx c (uv_read_stop Client w))) with c
    by reflexivity.
  open_world w. simpl in Hst. subst st. clear Hparse.
  destruct (Z.eqb_spec (atyp c) (S5_ATYP_IPV4 P)) as [E4|E4];
    [|destruct (Z.eqb_spec (atyp c) (S5_ATYP_DOMAIN P)) as [E3|E3];
      [|destruct (Z.eqb_spec (atyp c) (S5_ATYP_IPV6 P)) as [E6|E6]]].
  all: unfold_calls; simpl.
  all: repeat (break_if; simpl in *; try discriminate).
  all: since_compute; simpl.
  all: repeat split; intros; try reflexivity; try congruence; try tauto;
       try lia.
Qed.

End Request.

(** A resolver failure on a fresh session. *)
Lemma resolve_failure_reply_witness :
  state (upstream_connect_domain linux_le (-3008) [cand_a] 0
           (fresh zero_ctx zero_buf []))
  = S5_STREAMING_END.
Proof.
  refine (proj2 (proj2 (proj2 (resolve_failure_reply linux_le
            (fresh zero_ctx zero_buf []) (-3008) [cand_a] 0 _)))).
  lia.
Defined.

(** The CONNECT 127.0.0.1:9000 request of scenario S1. *)
Lemma request_dispatch_witness :
  read_starts_of
    (since (set_state S5_REQUEST (fresh zero_ctx zero_buf []))
       (on_client_read_done linux_le 10 [5; 1; 0; 1; 127; 0; 0; 1; 35; 40]
          (set_state S5_REQUEST (fresh zero_ctx zero_buf []))))
  = [].
Proof.
  refine (proj1 (request_dispatch linux_le
                   (set_state S5_REQUEST (fresh zero_ctx zero_buf []))
                   10 [5; 1; 0; 1; 127; 0; 0; 1; 35; 40]
                   (Build_Socks5Ctx 1 0 1 [127; 0; 0; 1] 9000) _ _ _)).
  - reflexivity.
  - lia.
  - reflexivity.
Defined.

(** A new connection: the session starts in phase MethodNegotiation, and
    nothing is written, connected or freed by [on_connection_new].  Either a
    set-up call failed, and then the session has been handed to
    [close_session] and is not reading, or the read on the client endpoint
    has been started, exactly once, after [uv_accept].  When every call
    returns 0 the calls are, in order: init and keepalive of the client
    handle, init and keepalive of the upstream handle, accept, read start. *)
Theorem accept_starts_client_read (ctx : Socks5Ctx) (buf : list byte)
  (rets : list Z) :
  let w' := on_connection_new (fresh ctx buf rets) in
  state w' = S5_METHOD_IDENTIFICATION
  /\ writes_of (rev (history w')) = []
  /\ connects_of (rev (history w')) = []
  /\ frees w' = 0%nat
  /\ ((closing_both w' = true /\ reading (client_tcp w') = false)
      \/ (closing (client_tcp w') = false /\ closing (upstream_tcp w') = false
          /\ reading (client_tcp w') = true
          /\ read_starts_of (rev (history w')) = [Client]
          /\ In (ICall CAccept) (history w')))
  /\ (Forall (fun r => r = 0) rets ->
      rev (history w')
      = [ICall (CTcpInit Client); ICall (CKeepalive Client);
         ICall (CTcpInit Upstream); ICall (CKeepalive Upstream);
         ICall CAccept; ICall (CReadStart Client)]).
Proof.
  cbv zeta. unfold on_connection_new, fresh, create_session_state.
  unfold_calls. simpl.
  repeat (break_if; simpl in *; try discriminate).
  all: repeat split; auto 10.
  all: intros HF;
    repeat match goal with
           | H : Forall _ (_ :: _) |- _ => inversion H; clear H; subst
           end;
    try discriminate; try reflexivity.
Qed.

Section Reply_layout.

Variable P : Platform.

Lemma memcpy_length (dst src : list byte) (off n : nat) :
  (off + n <= length dst)%nat -> (n <= length src)%nat ->
  length (memcpy dst off src n) = length dst.
Proof.
  intros Hd Hs. unfold memcpy.
  rewrite !length_app, !length_firstn, length_skipn. lia.
Qed.

Lemma memcpy_prefix (dst src : list byte) (off n : nat) :
  (off + n <= length dst)%nat -> (n <= length src)%nat ->
  firstn (off + n) (memcpy dst off src n) = firstn off dst ++ firstn n src.
Proof.
  intros Hd Hs. unfold memcpy.
  rewrite app_assoc, firstn_app.
  rewrite !length_app, !length_firstn.
  replace (off + n - (Nat.min off (length dst) + Nat.min n (length src)))%nat
    with 0%nat by lia.
  rewrite firstn_O, app_nil_r.
  apply firstn_all2. rewrite length_app, !length_firstn. lia.
Qed.

Lemma memcpy_keeps_prefix (dst src : list byte) (off n k : nat) :
  (k <= off)%nat -> (off <= length dst)%nat ->
  firstn k (memcpy dst off src n) = firstn k dst.
Proof.
  intros Hk Hd. unfold memcpy.
  rewrite firstn_app, length_firstn.
  replace (k - Nat.min off (length dst))%nat with 0%nat by lia.
  rewrite firstn_O, app_nil_r, firstn_firstn.
  now replace (Nat.min k off) with k by lia.
Qed.

Lemma memcpy_suffix (dst src : list byte) (off n : nat) :
  (off + n <= length dst)%nat -> (n <= length src)%nat ->
  skipn (off + n) (memcpy dst off src n) = skipn (off + n) dst.
Proof.
  intros Hd Hs. unfold memcpy.
  rewrite app_assoc, skipn_app.
  rewrite !length_app, !length_firstn.
  replace (off + n - (Nat.min off (length dst) + Nat.min n (length src)))%nat
    with 0%nat by lia.
  rewrite skipn_O.
  rewrite skipn_all2; [reflexivity|].
  rewrite length_app, !length_firstn. lia.
Qed.

(** The success reply of [upstream_connect_cb], for any bound address: the
    four bytes 05 00 00 01, then the first 4 (IPv4) or 16 (IPv6) bytes of
    the bound address, then the first two bytes of the [int] port as it lies
    in memory; 10 or 22 bytes in all.  The address-type byte is 1 for both
    families.  The reply is built in [client_buf], whose bytes after the
    reply are left as they were. *)
Theorem success_reply_layout (g : ServerContext) (buf : list byte) :
  (22 <= length buf)%nat ->
  length (bound_ip g) = 16%nat ->
  let alen := match bound_ip_ver g with IPV4 => 4%nat | IPV6 => 16%nat end in
  success_reply P g buf
  = [5; 0; 0; 1] ++ firstn alen (bound_ip g)
    ++ firstn 2 (int_bytes (little_endian P) (port (server_cfg g)))
  /\ length (success_reply P g buf) = (6 + alen)%nat
  /\ nth 3 (success_reply P g buf) 0 = 1
  /\ length (success_buf P g buf) = length buf
  /\ skipn (6 + alen) (success_buf P g buf) = skipn (6 + alen) buf.
Proof.
  intros Hb Hip alen.
  assert (Hint : length (int_bytes (little_endian P) (port (server_cfg g)))
                 = 4%nat)
    by (unfold int_bytes; destruct (little_endian P); reflexivity).
  set (pb := int_bytes (little_endian P) (port (server_cfg g))) in *.
  set (b1 := memcpy buf 0 [5; 0; 0; 1] 4).
  assert (L1 : length b1 = length buf)
    by (apply memcpy_length; simpl; lia).
  assert (F1 : firstn 4 b1 = [5; 0; 0; 1])
    by (apply (memcpy_prefix buf [5; 0; 0; 1] 0 4); simpl; lia).
  assert (S1 : skipn 4 b1 = skipn 4 buf)
    by (apply (memcpy_suffix buf [5; 0; 0; 1] 0 4); simpl; lia).
  set (b2 := memcpy b1 4 (bound_ip g) alen).
  assert (L2 : length b2 = length buf)
    by (subst b2; rewrite memcpy_length; subst alen;
        destruct (bound_ip_ver g); lia).
  assert (F2 : firstn (4 + alen) b2 = [5; 0; 0; 1] ++ firstn alen (bound_ip g))
    by (subst b2; rewrite memcpy_prefix, F1; subst alen;
        destruct (bound_ip_ver g); auto; lia).
  assert (S2 : skipn (4 + alen) b2 = skipn (4 + alen) buf).
  { subst b2. rewrite memcpy_suffix by
      (subst alen; destruct (bound_ip_ver g); lia).
    replace (4 + alen)%nat with (alen + 4)%nat by lia.
    rewrite <- (skipn_skipn alen 4 b1), <- (skipn_skipn alen 4 buf), S1.
    reflexivity. }
  set (b3 := memcpy b2 (4 + alen) pb 2).
  assert (L3 : length b3 = length buf)
    by (subst b3; rewrite memcpy_length; subst alen;
        destruct (bound_ip_ver g); lia).
  assert (F3 : firstn (4 + alen + 2) b3
               = ([5; 0; 0; 1] ++ firstn alen (bound_ip g)) ++ firstn 2 pb)
    by (subst b3; rewrite memcpy_prefix, F2; subst alen;
        destruct (bound_ip_ver g); auto; lia).
  assert (S3 : skipn (4 + alen + 2) b3 = skipn (4 + alen + 2) buf).
  { subst b3. rewrite memcpy_suffix by
      (subst alen; destruct (bound_ip_ver g); lia).
    replace (4 + alen + 2)%nat with (2 + (4 + alen))%nat by lia.
    rewrite <- (skipn_skipn 2 (4 + alen) b2),
      <- (skipn_skipn 2 (4 + alen) buf), S2.
    reflexivity. }
  assert (Hbuf : success_buf P g buf = b3).
  { unfold success_buf. subst b3 b2 b1 alen pb.
    destruct (bound_ip_ver g); reflexivity. }
  assert (Hrep : success_reply P g buf = firstn (4 + alen + 2) b3).
  { unfold success_reply, success_len. rewrite Hbuf. subst alen.
    destruct (bound_ip_ver g); reflexivity. }
  rewrite Hrep, F3, Hbuf, <- app_assoc.
  replace (6 + alen)%nat with (4 + alen + 2)%nat by lia.
  split; [reflexivity|]. split; [|split; [reflexivity|split; [exact L3|exact S3]]].
  rewrite !length_app, !length_firstn, Hip, Hint. simpl.
  subst alen. destruct (bound_ip_ver g); reflexivity.
Qed.

End Reply_layout.

(** The reply of the server bound to 127.0.0.1 has 10 bytes. *)
Lemma success_reply_layout_witness :
  length (success_reply linux_le loopback_ctx zero_buf) = 10%nat.
Proof.
  refine (proj1 (proj2 (success_reply_layout linux_le loopback_ctx zero_buf
                          _ _))).
  - vm_compute. lia.
  - reflexivity.
Defined.

Section Reachable_facts.

Variable P : Platform.
Variable g : ServerContext.

(** During the handshake of an open session the upstream endpoint is idle,
    at most one reply to the client is in flight, and while one is in flight
    the client is not read and no resolve or connect is outstanding. *)
Theorem handshake_stop_and_wait (w : World) :
  reachable P g w ->
  handshake (state w) = true ->
  closing (client_tcp w) = false ->
  writes (upstream_tcp w) = [] /\ reading (upstream_tcp w) = false
  /\ (length (writes (client_tcp w)) <= 1)%nat
  /\ (writes (client_tcp w) <> [] ->
      reading (client_tcp w) = false
      /\ upstream_addrinfo_req w = false /\ upstream_connect_req w = None)
  /\ (reading (client_tcp w) = true ->
      upstream_addrinfo_req w = false /\ upstream_connect_req w = None).
Proof.
  intros Hr Hh Hc. pose proof (reachable_inv P g w Hr) as Hinv.
  open_world w. simpl in *. subst cc.
  unfold_inv_in Hinv. simpl in Hinv.
  split_hyp Hinv; simpl in *; subst; try discriminate; bool_hyps;
    simpl; repeat split; auto; try lia; try congruence;
    intros; try congruence; try discriminate.
Qed.

(** While a resolve or a connect is outstanding the session is open, in
    phase Request, with both endpoints idle: not reading, nothing in
    flight, not closing, not freed; and only one of the two is outstanding.
    The completion therefore never finds a closed or freed session. *)
Theorem pending_request_finds_open_session (w : World) :
  reachable P g w ->
  upstream_addrinfo_req w = true \/ upstream_connect_req w <> None ->
  state w = S5_REQUEST
  /\ closing (client_tcp w) = false /\ closing (upstream_tcp w) = false
  /\ reading (client_tcp w) = false /\ reading (upstream_tcp w) = false
  /\ writes (client_tcp w) = [] /\ writes (upstream_tcp w) = []
  /\ frees w = 0%nat
  /\ (upstream_addrinfo_req w = true -> upstream_connect_req w = None).
Proof.
  intros Hr Hp. pose proof (reachable_inv P g w Hr) as Hinv.
  open_world w. simpl in *.
  unfold_inv_in Hinv. simpl in Hinv.
  destruct Hp as [Hp|Hp];
    split_hyp Hinv; simpl in *; subst; try discriminate; try congruence;
    repeat split; auto; congruence.
Qed.

(** Both endpoints are closed together, and before the close is requested
    the release timer has not been touched and nothing has completed its
    close. *)
Theorem endpoints_close_together (w : World) :
  reachable P g w ->
  closing (client_tcp w) = closing (upstream_tcp w)
  /\ (closing (client_tcp w) = false ->
      timer_release_req w = Build_Timer false false false
      /\ closed (client_tcp w) = false /\ closed (upstream_tcp w) = false)
  /\ (closing (client_tcp w) = true ->
      upstream_addrinfo_req w = false /\ upstream_connect_req w = None).
Proof.
  intros Hr. pose proof (reachable_inv P g w Hr) as Hinv.
  open_world w. simpl in *.
  unfold_inv_in Hinv. simpl in Hinv.
  split_hyp Hinv; simpl in *; subst; try discriminate; try congruence;
    repeat split; auto; intros; try congruence; try discriminate.
Qed.

End Reachable_facts.


(** Right after accept the upstream endpoint is idle. *)
Lemma handshake_stop_and_wait_witness :
  writes (upstream_tcp accepted) = [].
Proof.
  refine (proj1 (handshake_stop_and_wait linux_le loopback_ctx accepted
                   accepted_reachable _ _)); reflexivity.
Defined.

(** After the CONNECT request of scenario S1 the connect is outstanding. *)
Lemma pending_request_finds_open_session_witness :
  exists w,
    run linux_le loopback_ctx accepted (firstn 3 relay_prefix) = Some w
    /\ state w = S5_REQUEST.
Proof.
  destruct (run linux_le loopback_ctx accepted (firstn 3 relay_prefix))
    as [w|] eqn:Hrun; [|vm_compute in Hrun; discriminate].
  exists w. split; [reflexivity|].
  refine (proj1 (pending_request_finds_open_session linux_le loopback_ctx w
                   _ _)).
  - apply (reachable_run linux_le loopback_ctx (firstn 3 relay_prefix)
             accepted w accepted_reachable Hrun).
  - right. vm_compute in Hrun. injection Hrun as <-. discriminate.
Defined.

Lemma endpoints_close_together_witness :
  closing (client_tcp accepted) = closing (upstream_tcp accepted).
Proof.
  exact (proj1 (endpoints_close_together linux_le loopback_ctx accepted
                  accepted_reachable)).
Defined.

Section Phases.

Variable P : Platform.
Variable g : ServerContext.

Lemma state_close_session (w : World) : state (close_session w) = state w.
Proof.
  destruct (close_session_spec w) as (cs & _ & _ & _ & _ & H & _). exact H.
Qed.

Lemma state_client_write_start (k : WriteKind) (d : list byte) (w : World) :
  state (snd (client_write_start k d w)) = state w.
Proof.
  destruct (client_write_start_spec k d w) as (cs & _ & _ & _ & H & _).
  exact H.
Qed.

Lemma state_client_write_error (e : Z) (w : World) :
  state (snd (client_write_error P e w)) = S5_STREAMING_END.
Proof.
  destruct (client_write_error_spec P e w) as (cs & _ & _ & _ & H & _).
  exact H.
Qed.

Lemma state_upstream_write_start (d : list byte) (w : World) :
  state (snd (upstream_write_start d w)) = state w.
Proof.
  destruct (upstream_write_start_spec d w) as (cs & _ & _ & _ & H & _).
  exact H.
Qed.

Lemma state_client_read_start (w : World) :
  state (snd (client_read_start w)) = state w.
Proof.
  unfold client_read_start, uv_read_start, next_ret.
  destruct (oracle w) as [|r o]; simpl; [reflexivity|].
  destruct (r =? 0) eqn:E; simpl; rewrite ?E; simpl; [reflexivity|].
  now rewrite state_close_session.
Qed.

Lemma state_upstream_read_start (w : World) :
  state (snd (upstream_read_start w)) = state w.
Proof.
  unfold upstream_read_start, uv_read_start, next_ret.
  destruct (oracle w) as [|r o]; simpl; [reflexivity|].
  destruct (r =? 0) eqn:E; simpl; rewrite ?E; simpl; [reflexivity|].
  now rewrite state_close_session.
Qed.

Lemma state_request_connect (w : World) :
  state (request_connect P w) = state w
  \/ state (request_connect P w) = S5_STREAMING_END.
Proof.
  unfold request_connect, upstream_connect, uv_tcp_connect, uv_getaddrinfo,
    next_ret.
  repeat match goal with
         | |- context [if ?b then _ else _] => destruct b eqn:?; simpl
         | |- context [match oracle w with [] => _ | _ :: _ => _ end] =>
           destruct (oracle w); simpl
         end;
    rewrite ?state_client_write_error; auto.
Qed.

Lemma state_connect_candidates (res : list addrinfo) :
  forall err w,
    state (connect_candidates P res err w) = state w
    \/ state (connect_candidates P res err w) = S5_STREAMING_END.
Proof.
  intros err w.
  destruct (connect_candidates_cases P res err w)
    as (o & h & [[a ->]|[e ->]]).
  - left. reflexivity.
  - right. apply state_client_write_error.
Qed.

(** What a client read completion can do to the phase. *)
Lemma state_client_read_done (nread : Z) (buf : list byte) (w : World) :
  phase_step (state w) (state (on_client_read_done P nread buf w)) = true.
Proof.
  assert (Hrefl : forall s, phase_step s s = true) by (intros []; reflexivity).
  unfold on_client_read_done.
  destruct (nread =? 0); [apply Hrefl|].
  destruct (nread <? 0); [rewrite state_close_session; apply Hrefl|].
  replace (state (uv_read_stop Client w)) with (state w) by reflexivity.
  destruct (state w) eqn:Hst.
  - destruct (socks5_parse_method_identification P
                (socks5_ctx (uv_read_stop Client w)) buf nread) as [e c].
    destruct (negb (e =? S5_OK P)).
    { rewrite state_close_session. simpl. now rewrite Hst. }
    destruct (s5_state c =? S5_PARSE_STATE_FINISH P).
    + destruct (negb (Z.land (methods c) (S5_AUTH_NONE P) =? 0));
        unfold client_write_string; rewrite state_client_write_start;
        reflexivity.
    + rewrite state_client_read_start. simpl. now rewrite Hst.
  - destruct (socks5_parse_request P (socks5_ctx (uv_read_stop Client w))
                buf nread) as [e c].
    destruct (negb (e =? S5_OK P)).
    + now rewrite state_client_write_error.
    + match goal with |- context [request_connect P ?x] =>
        destruct (state_request_connect x) as [H|H]; rewrite H
      end; [simpl; rewrite Hst|]; reflexivity.
  - rewrite state_upstream_write_start. simpl. now rewrite Hst.
  - rewrite state_close_session. simpl. now rewrite Hst.
Qed.

Lemma phase_step_event (w w' : World) (e : Event) :
  reachable P g w ->
  step P g w e = Some w' ->
  phase_step (state w) (state w') = true.
Proof.
  intros Hr Hstep.
  pose proof (reachable_inv P g w Hr) as Hinv.
  assert (Hrefl : forall s, phase_step s s = true) by (intros []; reflexivity).
  unfold step in Hstep. destruct (enabled w e) eqn:Hen; [|discriminate].
  injection Hstep as <-.
  destruct e; cbn [deliver].
  - cbv zeta.
    match goal with |- context [on_client_read_done P nread ?b ?x] =>
      replace (state w) with (state x);
        [apply (state_client_read_done nread b x)|]
    end.
    unfold read_into_client_buf. now destruct (0 <? nread).
  - unfold on_client_write_done.
    match goal with |- context [close_session ?x] => set (x0 := x) end.
    replace (state w) with (state x0) by reflexivity.
    destruct ((status <? 0) || SessionState_eqb (state x0) S5_STREAMING_END).
    + rewrite state_close_session. apply Hrefl.
    + pose proof (state_client_read_start x0) as H1.
      destruct (client_read_start x0) as [r x1]. cbn [snd] in H1.
      destruct (SessionState_eqb (state x1) S5_STREAMING).
      * rewrite state_upstream_read_start, H1. apply Hrefl.
      * rewrite H1. apply Hrefl.
  - unfold on_upstream_read_done.
    destruct (nread =? 0); [apply Hrefl|].
    match goal with |- context [close_session ?x] => set (x0 := x) end.
    replace (state w) with (state x0) by reflexivity.
    destruct ((nread <? 0) || SessionState_eqb (state x0) S5_STREAMING_END).
    + rewrite state_close_session. apply Hrefl.
    + rewrite state_client_write_start. apply Hrefl.
  - unfold on_upstream_write_done.
    match goal with |- context [close_session ?x] => set (x0 := x) end.
    replace (state w) with (state x0) by reflexivity.
    destruct ((status <? 0) || SessionState_eqb (state x0) S5_STREAMING_END).
    + rewrite state_close_session. apply Hrefl.
    + rewrite state_client_read_start. apply Hrefl.
  - destruct (pending_request_state w Hinv (or_introl Hen)) as [Hst _].
    rewrite Hst. unfold upstream_connect_domain.
    destruct (status <? 0).
    + now rewrite state_client_write_error.
    + match goal with |- context [connect_candidates P res garbage ?x] =>
        destruct (state_connect_candidates res garbage x) as [H|H];
          rewrite H
      end; [simpl; rewrite Hst|]; reflexivity.
  - assert (Hp : is_some (upstream_connect_req w) = true).
    { cbn [enabled] in Hen. apply andb_prop in Hen. tauto. }
    destruct (pending_request_state w Hinv (or_intror Hp)) as [Hst _].
    rewrite Hst. unfold upstream_connect_cb.
    destruct (status <? 0).
    + now rewrite state_client_write_error.
    + now rewrite state_client_write_start.
  - apply Hrefl.
  - apply Hrefl.
  - cbn. unfold release_timer_cb.
    destruct (negb (uv_timer_is_closing _)); apply Hrefl.
  - apply Hrefl.
Qed.

Lemma phase_run (es : list Event) :
  forall w w',
    reachable P g w ->
    run P g w es = Some w' ->
    (state w = S5_STREAMING -> state w' = S5_STREAMING)
    /\ (state w = S5_STREAMING_END -> state w' = S5_STREAMING_END)
    /\ (state w' = S5_METHOD_IDENTIFICATION ->
        state w = S5_METHOD_IDENTIFICATION).
Proof.
  induction es as [|e es IH]; intros w w' Hr Hrun; simpl in Hrun.
  - injection Hrun as <-. auto.
  - destruct (step P g w e) as [w1|] eqn:Hs; [|discriminate].
    pose proof (phase_step_event w w1 e Hr Hs) as H1.
    destruct (IH w1 w' (reach_step P g w e w1 Hr Hs) Hrun) as (Ha & Hb & Hc).
    repeat split; intros H.
    + apply Ha. rewrite H in H1. destruct (state w1); try discriminate.
      reflexivity.
    + apply Hb. rewrite H in H1. destruct (state w1); try discriminate.
      reflexivity.
    + specialize (Hc H). rewrite Hc in H1. destruct (state w); try discriminate.
      reflexivity.
Qed.

(** One completion moves the phase of an accepted connection along one of
    the edges MethodNegotiation to Request, MethodNegotiation to Ending,
    Request to Streaming, Request to Ending, or leaves it as it is: it never
    takes MethodNegotiation to Streaming, nor Request back to
    MethodNegotiation.  Hence, over any sequence of completions, a session
    in phase Streaming or Ending keeps its phase (closing a streaming
    session does not change it to Ending), and a session found in
    MethodNegotiation has been there all along. *)
Theorem phase_moves_forward (w : World) :
  reachable P g w ->
  (forall e w', step P g w e = Some w' ->
                phase_step (state w) (state w') = true)
  /\ (forall es w',
         run P g w es = Some w' ->
         (state w = S5_STREAMING -> state w' = S5_STREAMING)
         /\ (state w = S5_STREAMING_END -> state w' = S5_STREAMING_END)
         /\ (state w' = S5_METHOD_IDENTIFICATION ->
             state w = S5_METHOD_IDENTIFICATION)).
Proof.
  intros Hr. split.
  - intros e w' Hs. now apply (phase_step_event w w' e).
  - intros es w' Hrun. now apply (phase_run es w w').
Qed.

End Phases.

(** The greeting of scenario S1 moves the phase from MethodNegotiation to
    Request. *)
Lemma phase_moves_forward_witness :
  exists w',
    step linux_le loopback_ctx accepted (EClientRead 3 [5; 1; 0] []) = Some w'
    /\ state accepted = S5_METHOD_IDENTIFICATION
    /\ state w' = S5_REQUEST
    /\ phase_step (state accepted) (state w') = true.
Proof.
  destruct (step linux_le loopback_ctx accepted (EClientRead 3 [5; 1; 0] []))
    as [w'|] eqn:Hs; [|vm_compute in Hs; discriminate].
  exists w'. split; [reflexivity|]. split; [reflexivity|]. split.
  - vm_compute in Hs. injection Hs as <-. reflexivity.
  - exact (proj1 (phase_moves_forward linux_le loopback_ctx accepted
                    accepted_reachable) (EClientRead 3 [5; 1; 0] []) w' Hs).
Defined.

Section Listener_proofs.

Variable P : Platform.

Lemma candidate_addrs_app (p : Z) (a b : list addrinfo) :
  candidate_addrs P p (a ++ b) = candidate_addrs P p a ++ candidate_addrs P p b.
Proof. unfold candidate_addrs. now rewrite filter_app, map_app. Qed.

Lemma candidate_addrs_cons (p : Z) (ai : addrinfo) (rest : list addrinfo) :
  candidate_addrs P p (ai :: rest)
  = (if eligible P ai
     then [Build_IPAddr (sa_family (ai_addr ai)) (sin_addr (ai_addr ai))
             (htons (little_endian P) p)]
     else []) ++ candidate_addrs P p rest.
Proof.
  unfold candidate_addrs, eligible. simpl.
  destruct ((ai_family ai =? AF_INET P) || (ai_family ai =? AF_INET6 P));
    reflexivity.
Qed.

Lemma take_codes_app (n m : nat) :
  forall rets,
    take_codes (n + m) rets
    = take_codes n rets ++ take_codes m (Nat.iter n (@tl Z) rets).
Proof.
  induction n as [|n IH]; intros rets; [reflexivity|].
  simpl take_codes. rewrite IH. simpl. f_equal. f_equal. f_equal.
  clear. induction n as [|n IH]; [reflexivity|]. simpl. now rewrite IH.
Qed.

(** The loop went on after the calls [extra] (oldest first) on the
    candidate [ai], which used up the codes at the front of [rets]. *)
Lemma loop_outcome_after (res : list addrinfo) (ai : addrinfo)
  (rets : list Z) (ctx ctx1 : ServerContext) (calls extra : list ListenCall)
  (r : Listener) (front : list IPAddr) :
  server_cfg ctx1 = server_cfg ctx ->
  map code_of extra = take_codes (length extra) rets ->
  candidate_addrs P (port (server_cfg ctx)) [ai] = front ->
  failed_attempts (backlog (server_cfg ctx)) front extra ->
  loop_outcome P res (Nat.iter (length extra) (@tl Z) rets) ctx1
    (rev extra ++ calls) r ->
  loop_outcome P (ai :: res) rets ctx calls r.
Proof.
  intros Hcfg Hex Hfront Hfail (H1 & H2 & new & Hc & Hcodes & Hout).
  unfold loop_outcome. rewrite H1, Hcfg. split; [reflexivity|].
  split; [exact H2|].
  exists (extra ++ new). split; [now rewrite Hc, rev_app_distr, app_assoc|].
  split.
  { rewrite map_app, length_app, take_codes_app, Hex, Hcodes. reflexivity. }
  rewrite Hcfg in Hout.
  change (ai :: res) with ([ai] ++ res).
  rewrite candidate_addrs_app, Hfront.
  assert (Hjoin : forall l cs,
             failed_attempts (backlog (server_cfg ctx)) l cs ->
             failed_attempts (backlog (server_cfg ctx)) (front ++ l)
               (extra ++ cs)).
  { intros l cs Hl. clear - Hfail Hl.
    induction Hfail as [|a l0 cs0 rest0 Ha _ IH]; [exact Hl|].
    simpl. rewrite <- app_assoc. now constructor. }
  destruct Hout as [[Ho Hb]|(Ho & pre & a & post & cs & Hres & He & Hn
                             & Hb & Hv & Hf)].
  - left. auto.
  - right. split; [exact Ho|].
    exists (ai :: pre), a, post, (extra ++ cs).
    rewrite Hres, Hn. repeat split; auto.
    + unfold listen_addr. rewrite Hcfg. now rewrite app_assoc.
    + change (ai :: pre) with ([ai] ++ pre).
      rewrite candidate_addrs_app, Hfront. now apply Hjoin.
Qed.

(** One eligible candidate: bind and listen, or go on with the rest. *)
Lemma bind_and_listen_outcome (rest : list addrinfo) (ai : addrinfo)
  (v : IPVersion) (n : nat) (rets : list Z) (ctx : ServerContext)
  (calls : list ListenCall) :
  eligible P ai = true ->
  family_ver P ai = v -> family_len P ai = n ->
  (n <= 16)%nat -> (n <= length (sin_addr (ai_addr ai)))%nat ->
  length (bound_ip ctx) = 16%nat ->
  (forall rets ctx1 calls1,
      length (bound_ip ctx1) = 16%nat ->
      loop_outcome P rest rets ctx1 calls1
        (bind_candidates P rest rets ctx1 calls1)) ->
  loop_outcome P (ai :: rest) rets ctx calls
    (bind_and_listen (bind_candidates P rest)
       (Build_IPAddr (sa_family (ai_addr ai)) (sin_addr (ai_addr ai))
          (htons (little_endian P) (port (server_cfg ctx))))
       rets
       (set_bound v (memcpy (bound_ip ctx) 0 (sin_addr (ai_addr ai)) n) ctx)
       calls).
Proof.
  intros He Hv Hn Hn16 Hlen Hb IH.
  set (a := Build_IPAddr (sa_family (ai_addr ai)) (sin_addr (ai_addr ai))
              (htons (little_endian P) (port (server_cfg ctx)))).
  set (ctx1 := set_bound v (memcpy (bound_ip ctx) 0 (sin_addr (ai_addr ai)) n)
                 ctx).
  assert (Hl1 : length (bound_ip ctx1) = 16%nat)
    by (subst ctx1; simpl; rewrite memcpy_length; lia).
  assert (Hfront : candidate_addrs P (port (server_cfg ctx)) [ai] = [a])
    by (rewrite candidate_addrs_cons, He; reflexivity).
  unfold bind_and_listen. cbv zeta.
  destruct (Z.eqb_spec (hd 0 rets) 0) as [E1|E1]; cbn [negb].
  - destruct (Z.eqb_spec (hd 0 (tl rets)) 0) as [E2|E2]; cbn [negb].
    + unfold loop_outcome. simpl. split; [reflexivity|].
      split; [rewrite memcpy_length; lia|].
      exists [LBind a 0; LListen (backlog (server_cfg ctx)) 0].
      split; [now rewrite E1, E2|]. split; [simpl; now rewrite E1, E2|].
      right. split; [reflexivity|].
      exists [], ai, rest, []. simpl app.
      repeat split; auto; [constructor|].
      rewrite Hn. apply (memcpy_prefix (bound_ip ctx) _ 0 n); lia.
    + apply (loop_outcome_after rest ai rets ctx ctx1 calls
               [LBind a (hd 0 rets);
                LListen (backlog (server_cfg ctx1)) (hd 0 (tl rets))] _ [a]);
        auto.
      * rewrite E1.
        change [LBind a 0;
                LListen (backlog (server_cfg ctx1)) (hd 0 (tl rets))]
          with ([LBind a 0;
                 LListen (backlog (server_cfg ctx)) (hd 0 (tl rets))] ++ []).
        constructor; [now constructor|constructor].
  - apply (loop_outcome_after rest ai rets ctx ctx1 calls
             [LBind a (hd 0 rets)] _ [a]); auto.
    change [LBind a (hd 0 rets)] with ([LBind a (hd 0 rets)] ++ []).
    constructor; [now constructor|constructor].
Qed.

Lemma bind_candidates_outcome (res : list addrinfo) :
  Forall (wf_candidate P) res ->
  forall rets ctx calls,
    length (bound_ip ctx) = 16%nat ->
    loop_outcome P res rets ctx calls (bind_candidates P res rets ctx calls).
Proof.
  induction 1 as [|ai rest Hwf _ IH]; intros rets ctx calls Hlen.
  - unfold loop_outcome. simpl. split; [reflexivity|]. split; [exact Hlen|].
    exists []. split; [reflexivity|]. split; [reflexivity|]. left.
    split; [reflexivity|constructor].
  - cbn [bind_candidates]. cbv zeta.
    destruct (ai_family ai =? AF_INET P) eqn:E4.
    + assert (He : eligible P ai = true) by (unfold eligible; now rewrite E4).
      specialize (Hwf He). unfold family_len in Hwf. rewrite E4 in Hwf.
      apply (bind_and_listen_outcome rest ai IPV4 4);
        [exact He| unfold family_ver; now rewrite E4
        | unfold family_len; now rewrite E4 | lia | exact Hwf | exact Hlen
        | intros; now apply IH].
    + destruct (ai_family ai =? AF_INET6 P) eqn:E6.
      * assert (He : eligible P ai = true)
          by (unfold eligible; rewrite E6; apply orb_true_r).
        specialize (Hwf He). unfold family_len in Hwf. rewrite E4 in Hwf.
        apply (bind_and_listen_outcome rest ai IPV6 16);
          [exact He| unfold family_ver; now rewrite E4
          | unfold family_len; now rewrite E4 | lia | exact Hwf | exact Hlen
          | intros; now apply IH].
      * apply (loop_outcome_after rest ai rets ctx ctx calls [] _ []);
          [reflexivity|reflexivity| |constructor|now apply IH].
        rewrite candidate_addrs_cons. unfold eligible. now rewrite E4, E6.
Qed.

(** [do_bind_and_listen] after a successful resolve and [uv_tcp_init], with
    [rets] the return codes of its calls in call order.  Every call is
    logged with the code it got from [rets].  The candidates of family INET
    or INET6 are tried in list order.  The function returns listening on the
    first candidate whose [uv_tcp_bind] and [uv_listen] both return 0: every
    candidate before it had its bind return a non-zero code, or its bind
    return 0 and its listen a non-zero code, and no call is made after the
    successful listen; the context then holds that candidate's family and
    address bytes.  It calls [exit(1)] when every candidate failed in that
    way.  The configuration is never changed. *)
Theorem bind_listen_first_success (status : Z) (res : list addrinfo)
  (rets : list Z) (ctx : ServerContext) :
  0 <= status ->
  hd 0 rets = 0 ->
  length (bound_ip ctx) = 16%nat ->
  Forall (wf_candidate P) res ->
  let r := do_bind_and_listen P status res rets ctx in
  let log := rev (l_calls r) in
  server_cfg (l_ctx r) = server_cfg ctx
  /\ map code_of log = take_codes (length log) rets
  /\ ((l_outcome r = Exit1
       /\ exists cs,
           log = LTcpInit 0 :: cs
           /\ failed_attempts (backlog (server_cfg ctx))
                (candidate_addrs P (port (server_cfg ctx)) res) cs)
      \/ (l_outcome r = Listening
          /\ exists pre ai post cs,
              res = pre ++ ai :: post
              /\ eligible P ai = true
              /\ log = LTcpInit 0
                         :: cs ++ [LBind (listen_addr P ctx ai) 0;
                                   LListen (backlog (server_cfg ctx)) 0]
              /\ failed_attempts (backlog (server_cfg ctx))
                   (candidate_addrs P (port (server_cfg ctx)) pre) cs
              /\ bound_ip_ver (l_ctx r) = family_ver P ai
              /\ firstn (family_len P ai) (bound_ip (l_ctx r))
                 = firstn (family_len P ai) (sin_addr (ai_addr ai)))).
Proof.
  intros Hs Hinit Hlen Hwf r log.
  assert (Hr : r = bind_candidates P res (tl rets) ctx [LTcpInit 0]).
  { subst r. unfold do_bind_and_listen.
    replace (status <? 0) with false by lia. now rewrite Hinit. }
  destruct (bind_candidates_outcome res Hwf (tl rets) ctx [LTcpInit 0] Hlen)
    as (Hcfg & _ & new & Hc & Hcodes & Hout).
  rewrite <- Hr in Hcfg, Hc, Hout.
  assert (Hlog : log = LTcpInit 0 :: new).
  { subst log. rewrite Hc, rev_app_distr, rev_involutive. reflexivity. }
  split; [exact Hcfg|]. split.
  { rewrite Hlog. simpl. rewrite Hinit, Hcodes. reflexivity. }
  destruct Hout as [[Ho Hb]|(Ho & pre & ai & post & cs & Hres & He & Hn
                             & Hb & Hv & Hf)].
  - left. split; [exact Ho|]. exists new. auto.
  - right. split; [exact Ho|].
    exists pre, ai, post, cs. rewrite Hlog, Hn. auto 10.
Qed.

End Listener_proofs.

(** The first bind fails (address in use), the second candidate is bound and
    listened on: the four calls got the four codes, in order. *)
Lemma bind_listen_first_success_witness :
  map code_of
    (rev (l_calls (do_bind_and_listen linux_le 0 [cand_a; cand_b]
                     [0; -98; 0; 0] (start_ctx SERVER_PORT SERVER_BACKLOG))))
  = [0; -98; 0; 0].
Proof.
  refine (proj1 (proj2 (bind_listen_first_success linux_le 0 [cand_a; cand_b]
                          [0; -98; 0; 0]
                          (start_ctx SERVER_PORT SERVER_BACKLOG)
                          _ _ _ _))).
  - lia.
  - reflexivity.
  - reflexivity.
  - repeat constructor; unfold wf_candidate; simpl; lia.
Defined.

Section After_close.

Variable P : Platform.
Variable g : ServerContext.

Ltac no_read_start :=
  exfalso; match goal with H : ?x <> ?x |- _ => now apply H end.

(** Once the close of a session of an accepted connection has been
    requested, no completion, whatever its status, makes it write to an
    endpoint, connect or resolve again; the phase is kept and both endpoints
    stay closing.  The one call it can still make on an endpoint is
    [uv_read_start], on a closing handle: that happens only when a write
    completion arrives with a status that is not negative, outside phase
    Ending. *)
Theorem closing_session_writes_nothing (w w' : World) (e : Event) :
  reachable P g w ->
  closing (client_tcp w) = true ->
  step P g w e = Some w' ->
  writes_of (since w w') = []
  /\ connects_of (since w w') = []
  /\ resolves_of (since w w') = []
  /\ state w' = state w
  /\ closing_both w' = true
  /\ (read_starts_of (since w w') <> [] ->
      state w <> S5_STREAMING_END
      /\ exists status rets,
          0 <= status
          /\ (e = EClientWriteDone status rets
              \/ e = EUpstreamWriteDone status rets)).
Proof.
  intros Hr Hc Hstep. pose proof (reachable_inv P g w Hr) as Hinv.
  unfold step in Hstep. destruct (enabled w e) eqn:Hen; [|discriminate].
  injection Hstep as <-.
  assert (Hcl : closing (upstream_tcp w) = true
                /\ upstream_addrinfo_req w = false
                /\ upstream_connect_req w = None).
  { destruct Hinv as [((Hf & _) & _)|(_ & H1 & H2 & H3 & _)];
      [congruence|auto]. }
  destruct Hcl as (Hcl & Har & Hcq).
  unfold closing_both.
  open_world w. simpl in Hc, Hcl, Har, Hcq. subst cc uc ar cq.
  destruct e; simpl in Hen; rewrite ?andb_false_r in Hen;
    try discriminate Hen; cbn [deliver].
  - (* client write completion *)
    unfold on_client_write_done.
    destruct (Z.ltb_spec status 0) as [Hs|Hs]; cbn [orb].
    + unfold_calls. simpl. since_compute. simpl.
      repeat split; auto; no_read_start.
    + destruct st; unfold_calls; simpl;
        repeat (break_if; simpl in *; try discriminate);
        since_compute; simpl; repeat split; auto; try discriminate;
        try no_read_start;
        do 2 eexists; (split; [exact Hs|]);
        first [left; reflexivity | right; reflexivity].
  - (* upstream write completion *)
    unfold on_upstream_write_done.
    destruct (Z.ltb_spec status 0) as [Hs|Hs]; cbn [orb].
    + unfold_calls. simpl. since_compute. simpl.
      repeat split; auto; no_read_start.
    + destruct st; unfold_calls; simpl;
        repeat (break_if; simpl in *; try discriminate);
        since_compute; simpl; repeat split; auto; try discriminate;
        try no_read_start;
        do 2 eexists; (split; [exact Hs|]);
        first [left; reflexivity | right; reflexivity].
  - unfold_calls. simpl. since_compute. simpl.
    repeat split; auto; no_read_start.
  - unfold_calls. simpl. since_compute. simpl.
    repeat split; auto; no_read_start.
  - unfold_calls. simpl. destruct tc; simpl; since_compute; simpl;
      repeat split; auto; no_read_start.
  - unfold_calls. simpl. since_compute. simpl.
    repeat split; auto; no_read_start.
Qed.

(** In phase MethodNegotiation, when the decoder returns [S5_OK] without
    having finished the greeting, the callback writes nothing and restarts
    the client read, keeping the phase. *)
Theorem greeting_need_more_reads_again (w : World) (nread : Z)
  (buf : list byte) (c : Socks5Ctx) :
  state w = S5_METHOD_IDENTIFICATION ->
  0 < nread ->
  socks5_parse_method_identification P (socks5_ctx w) buf nread
    = (S5_OK P, c) ->
  s5_state c <> S5_PARSE_STATE_FINISH P ->
  let w' := on_client_read_done P nread buf w in
  read_starts_of (since w w') = [Client]
  /\ writes_of (since w w') = []
  /\ state w' = S5_METHOD_IDENTIFICATION
  /\ socks5_ctx w' = c.
Proof.
  intros Hst Hpos Hparse Hfin w'. subst w'.
  unfold on_client_read_done.
  replace (nread =? 0) with false by lia.
  replace (nread <? 0) with false by lia.
  replace (state (uv_read_stop Client w)) with S5_METHOD_IDENTIFICATION
    by (now rewrite <- Hst).
  replace (socks5_ctx (uv_read_stop Client w)) with (socks5_ctx w)
    by reflexivity.
  rewrite Hparse, Z.eqb_refl. cbn [negb].
  destruct (Z.eqb_spec (s5_state c) (S5_PARSE_STATE_FINISH P)) as [|_];
    [contradiction|].
  open_world w. simpl in Hst. subst st.
  unfold_calls. simpl.
  repeat (break_if; simpl in *; try discriminate);
    since_compute; simpl; auto.
Qed.

End After_close.

(** After a read error the session is closing; the close completion of the
    client endpoint writes nothing. *)
Lemma closing_session_writes_nothing_witness :
  exists w w',
    run linux_le loopback_ctx accepted read_error_run = Some w
    /\ step linux_le loopback_ctx w EClientClosed = Some w'
    /\ writes_of (since w w') = [].
Proof.
  destruct (run linux_le loopback_ctx accepted read_error_run)
    as [w|] eqn:Hrun; [|vm_compute in Hrun; discriminate].
  destruct (step linux_le loopback_ctx w EClientClosed) as [w'|] eqn:Hs.
  - exists w, w'. split; [reflexivity|]. split; [exact Hs|].
    refine (proj1 (closing_session_writes_nothing linux_le
                     loopback_ctx w w' EClientClosed _ _ Hs)).
    + apply (reachable_run linux_le loopback_ctx read_error_run accepted w
               accepted_reachable Hrun).
    + vm_compute in Hrun. injection Hrun as <-. reflexivity.
  - vm_compute in Hrun. injection Hrun as <-. vm_compute in Hs. discriminate.
Defined.

(** The first byte of the greeting of scenario S5. *)
Lemma greeting_need_more_reads_again_witness :
  read_starts_of
    (since (fresh zero_ctx zero_buf [])
       (on_client_read_done linux_le 1 [5] (fresh zero_ctx zero_buf [])))
  = [Client].
Proof.
  refine (proj1 (greeting_need_more_reads_again linux_le
                   (fresh zero_ctx zero_buf []) 1 [5]
                   (Build_Socks5Ctx 0 0 0 [5] 0) _ _ _ _)).
  - reflexivity.
  - lia.
  - reflexivity.
  - vm_compute. discriminate.
Defined.
